(** * Uber trip dashboard ([app.py]): embedding and checked properties

    The script is a Streamlit page over a pandas table.  The embedding keeps
    the table columnar, as pandas has it: a [DataFrame] is a row index plus
    an ordered list of named columns; a datetime column holds nanoseconds
    since the epoch or the missing value NaT; numeric columns hold IEEE
    binary64 values (binary32 values after [astype('float32')]).

    What the libraries do (pandas selection, comparison, resampling and
    reductions; Streamlit session state, caching and script control) is
    written out as functions below, each with the call of [app.py] it
    stands for. *)

From Stdlib Require Import ZArith List Floats Lia Bool.
From stdpp Require Import base option list list_numbers gmap strings.

Local Open Scope string_scope.
Local Open Scope Z_scope.

(** ** Exceptions and results *)

(** Python exceptions of the classes the script can meet.  All of them are
    subclasses of [Exception]. *)
Inductive exn : Type :=
| KeyError (key : string)
| AttributeError (what : string)
| TypeError (what : string)
| ValueError (what : string)
| IndexError
| NameError (name : string)
| ReadError (path : string).

(** The outcome of a library call: a value, a raised exception, or
    [Unmodelled] on an input this embedding does not cover (string parsing
    of dates and numbers, reductions over columns of an unexpected dtype).
    No theorem below concludes anything from [Unmodelled]. *)
Inductive result (A : Type) : Type :=
| Ok (a : A)
| Raise (e : exn)
| Unmodelled.
Arguments Ok {A} a.
Arguments Raise {A} e.
Arguments Unmodelled {A}.

(** Sequencing stops at the first exception. *)
Global Instance result_bind : MBind result := λ A B k r,
  match r with
  | Ok a => k a
  | Raise e => Raise e
  | Unmodelled => Unmodelled
  end.
Global Instance result_ret : MRet result := λ A a, Ok a.

(** ** Timestamps and calendar dates *)

(** A [datetime64[ns]] value: nanoseconds since 1970-01-01T00:00. *)
Definition NS_PER_DAY : Z := 86400 * 1000000000.

(** [Timestamp.date()] / [.dt.date]: the calendar date, as the number of
    days since 1970-01-01 (floor division, so instants before the epoch
    fall on the earlier day). *)
Definition dt_date (ts : Z) : Z := ts / NS_PER_DAY.

(** Days since the epoch of the civil date [y-m-d] (proleptic Gregorian),
    used to write the dates of the scenarios. *)
Definition days_from_civil (y m d : Z) : Z :=
  let y' := if m <=? 2 then y - 1 else y in
  let era := y' / 400 in
  let yoe := y' - era * 400 in
  let mp := (m + 9) mod 12 in
  let doy := (153 * mp + 2) / 5 + d - 1 in
  let doe := yoe * 365 + yoe / 4 - yoe / 100 + doy in
  era * 146097 + doe - 719468.

(** Midnight at the start of a day. *)
Definition midnight (day : Z) : Z := day * NS_PER_DAY.

(** ** Columns and tables *)

Inductive column : Type :=
| Datetime64 (v : list (option Z))   (* [None] is NaT *)
| Float64 (v : list float)
| Float32 (v : list float)           (* every value is a binary32 value *)
| Object (v : list string).

Definition col_len (c : column) : nat :=
  match c with
  | Datetime64 v => length v
  | Float64 v => length v
  | Float32 v => length v
  | Object v => length v
  end.

Record DataFrame : Type := mkDataFrame {
  index : list Z;
  columns : list (string * column)
}.

(** [len(df)] and [df.shape]. *)
Definition len (df : DataFrame) : nat := length (index df).
Definition shape (df : DataFrame) : nat * nat := (len df, length (columns df)).

(** [df.columns.tolist()] and [col in df.columns]. *)
Definition column_names (df : DataFrame) : list string := map fst (columns df).
Definition has_column (df : DataFrame) (name : string) : bool :=
  bool_decide (name ∈ column_names df).

(** [df.empty]: some axis has length zero. *)
Definition empty (df : DataFrame) : bool :=
  (len df =? 0)%nat || (length (columns df) =? 0)%nat.

(** The invariant pandas keeps: every column is as long as the index. *)
Definition wf (df : DataFrame) : Prop :=
  Forall (λ nc, col_len (snd nc) = len df) (columns df).

Fixpoint assoc (name : string) (cols : list (string * column)) : option column :=
  match cols with
  | [] => None
  | (n, c) :: rest => if String.eqb name n then Some c else assoc name rest
  end.

(** [df[name]]. *)
Definition getitem (df : DataFrame) (name : string) : result column :=
  match assoc name (columns df) with
  | Some c => Ok c
  | None => Raise (KeyError name)
  end.

(** Selection by a boolean mask: the elements at the positions where the
    mask is [true], in order. *)
Fixpoint select {A} (mask : list bool) (l : list A) : list A :=
  match mask, l with
  | b :: mask', x :: l' => if b then x :: select mask' l' else select mask' l'
  | _, _ => []
  end.

Definition col_select (mask : list bool) (c : column) : column :=
  match c with
  | Datetime64 v => Datetime64 (select mask v)
  | Float64 v => Float64 (select mask v)
  | Float32 v => Float32 (select mask v)
  | Object v => Object (select mask v)
  end.

(** [df[mask]] for a boolean Series [mask] on the index of [df]: a new
    table; [df] itself is a value here and is not changed. *)
Definition boolean_index (df : DataFrame) (mask : list bool) : DataFrame :=
  {| index := select mask (index df);
     columns := map (λ nc, (fst nc, col_select mask (snd nc))) (columns df) |}.

(** ** The date-range filter (lines 34-38 and 149-151) *)

(** A column that has rows, none of them with a timestamp. *)
Definition all_nat (v : list (option Z)) : bool :=
  match v with
  | [] => false
  | _ => forallb (λ x, match x with None => true | Some _ => false end) v
  end.

(** What [series.dt.date] returns: a Series of dtype [object] holding one
    [datetime.date] per timestamp and NaT where the timestamp is missing;
    but when the column has rows and all of them are NaT, pandas infers
    the dtype of the result anew and the Series is a [datetime64] one
    again, made of NaT. *)
Inductive date_series : Type :=
| DateObjects (v : list (option Z))
| NaTSeries (n : nat).

(** [series.dt.date]; the [.dt] accessor exists on datetime columns
    only. *)
Definition dt_date_series (c : column) : result date_series :=
  match c with
  | Datetime64 v =>
      if all_nat v then Ok (NaTSeries (length v))
      else Ok (DateObjects (map (option_map dt_date) v))
  | _ => Raise (AttributeError "dt")
  end.

(** [dates >= d] and [dates <= d] on one element of an object Series of
    dates: [False] wherever the element is missing. *)
Definition date_ge (d : Z) (x : option Z) : bool :=
  match x with Some x => d <=? x | None => false end.
Definition date_le (d : Z) (x : option Z) : bool :=
  match x with Some x => x <=? d | None => false end.

(** [series >= d] and [series <= d] for a [datetime.date] [d]: element by
    element on an object Series; a [datetime64] Series cannot be compared
    with a date. *)
Definition series_ge (s : date_series) (d : Z) : result (list bool) :=
  match s with
  | DateObjects v => Ok (map (date_ge d) v)
  | NaTSeries _ =>
      Raise (TypeError "Invalid comparison between dtype=datetime64[ns] and date")
  end.
Definition series_le (s : date_series) (d : Z) : result (list bool) :=
  match s with
  | DateObjects v => Ok (map (date_le d) v)
  | NaTSeries _ =>
      Raise (TypeError "Invalid comparison between dtype=datetime64[ns] and date")
  end.

(** [m1 & m2] on two Series over the same index. *)
Fixpoint mask_and (m1 m2 : list bool) : list bool :=
  match m1, m2 with
  | a :: m1', b :: m2' => (a && b) :: mask_and m1' m2'
  | _, _ => []
  end.

(** Both comparisons of the mask on one timestamp: whether the row is kept. *)
Definition in_interval (start_date end_date : Z) (x : option Z) : bool :=
  date_ge start_date (option_map dt_date x) && date_le end_date (option_map dt_date x).

(** The mask of lines 36-37 (and of lines 149-150). *)
Definition date_mask (df : DataFrame) (start_date end_date : Z) : result (list bool) :=
  c1 ← getitem df "pickup_datetime";
  d1 ← dt_date_series c1;
  lower ← series_ge d1 start_date;
  c2 ← getitem df "pickup_datetime";
  d2 ← dt_date_series c2;
  upper ← series_le d2 end_date;
  Ok (mask_and lower upper).

(** Lines 35-38.  The decorator of line 34 memoises the function on its
    arguments, of which it is a function; it is left out, and so is the one
    of line 41. *)
Definition filter_data (df : DataFrame) (start_date end_date : Z) : result DataFrame :=
  mask ← date_mask df start_date end_date;
  Ok (boolean_index df mask).

(** [date_range[i]] on the tuple returned by the date widget. *)
Definition tuple_get (t : list Z) (i : nat) : result Z :=
  match nth_error t i with
  | Some d => Ok d
  | None => Raise IndexError
  end.

(** Lines 149-151: the same mask written inline on [date_range], followed
    by [.copy()], which yields a table of equal content. *)
Definition filtered_df (df : DataFrame) (date_range : list Z) : result DataFrame :=
  c1 ← getitem df "pickup_datetime";
  d1 ← dt_date_series c1;
  lo ← tuple_get date_range 0;
  lower ← series_ge d1 lo;
  c2 ← getitem df "pickup_datetime";
  d2 ← dt_date_series c2;
  hi ← tuple_get date_range 1;
  upper ← series_le d2 hi;
  Ok (boolean_index df (mask_and lower upper)).

(** ** Minimum and maximum pickup date (lines 139-140) *)

Definition omin (a : option Z) (x : option Z) : option Z :=
  match a, x with
  | Some a, Some x => Some (Z.min a x)
  | Some a, None => Some a
  | None, x => x
  end.
Definition omax (a : option Z) (x : option Z) : option Z :=
  match a, x with
  | Some a, Some x => Some (Z.max a x)
  | Some a, None => Some a
  | None, x => x
  end.

(** [series.min()] and [series.max()] on a datetime column: missing values
    are skipped; the result is NaT when nothing is left. *)
Definition series_min (v : list (option Z)) : option Z := fold_left omin v None.
Definition series_max (v : list (option Z)) : option Z := fold_left omax v None.

(** [df["pickup_datetime"].min().date()]; [NaT.date()] is NaT.  On a
    column of another dtype the minimum is a float or a string, which has
    no [date] method. *)
Definition min_date (df : DataFrame) : result (option Z) :=
  c ← getitem df "pickup_datetime";
  match c with
  | Datetime64 v => Ok (option_map dt_date (series_min v))
  | _ => Raise (AttributeError "date")
  end.
Definition max_date (df : DataFrame) : result (option Z) :=
  c ← getitem df "pickup_datetime";
  match c with
  | Datetime64 v => Ok (option_map dt_date (series_max v))
  | _ => Raise (AttributeError "date")
  end.

(** ** Daily trip counts (lines 41-43 and 173) *)

Definition on_day (day : Z) (x : option Z) : bool :=
  match x with Some ts => dt_date ts =? day | None => false end.

(** Number of rows whose pickup instant falls on [day]. *)
Definition count_on_day (day : Z) (v : list (option Z)) : Z :=
  Z.of_nat (length (List.filter (on_day day) v)).

(** [df.resample('D', on=name).size()]: the rows are put in one-day bins
    anchored at midnight, from the day of the earliest instant to the day
    of the latest; every bin of that range is reported, empty ones with a
    count of 0, labelled by the midnight that opens it.  Rows whose instant
    is NaT belong to no bin.  On a table without rows [size()] raises an
    [AttributeError]; a non-empty column that holds nothing but NaT is not
    covered. *)
Definition resample_D_size (df : DataFrame) (name : string) : result (list (Z * Z)) :=
  c ← getitem df name;
  match c with
  | Datetime64 v =>
      match series_min v, series_max v with
      | Some first, Some last =>
          let d0 := dt_date first in
          let d1 := dt_date last in
          Ok (map (λ d, (midnight d, count_on_day d v)) (seqZ d0 (d1 - d0 + 1)))
      | _, _ => match v with [] => Raise (AttributeError "size") | _ => Unmodelled end
      end
  | _ => Raise (TypeError "Only valid with DatetimeIndex, TimedeltaIndex or PeriodIndex")
  end.

Definition aggregate_daily_trips (df : DataFrame) : result (list (Z * Z)) :=
  resample_D_size df "pickup_datetime".

(** [series.notna()] on one value of a datetime column. *)
Definition notna (x : option Z) : bool :=
  match x with Some _ => true | None => false end.

(** The calendar dates a daily Series has entries for, and the sum of its
    counts. *)
Definition label_dates (series : list (Z * Z)) : list Z :=
  map (λ e, dt_date (fst e)) series.
Definition total (counts : list Z) : Z := fold_right Z.add 0 counts.

(** ** Reductions over numeric columns (lines 158-162) *)

Definition fillna0 (x : float) : float := if PrimFloat.is_nan x then 0%float else x.

Definition count_valid (v : list float) : Z :=
  Z.of_nat (length (List.filter (λ x, negb (PrimFloat.is_nan x)) v)).

Definition float_of_Z (n : Z) : float := PrimFloat.of_uint63 (Uint63.of_Z n).

(** Rounding of a binary64 value to the nearest binary32 value. *)
Definition round32 (x : float) : float :=
  match Prim2SF x with
  | S754_finite s m e => SF2Prim (binary_normalize 24 128 (cond_Zopp s (Zpos m)) e s)
  | _ => x
  end.

(** [Series.sum()] and [Series.mean()] skip missing values: the sum is
    taken with NaN replaced by 0, the mean divides it by the number of
    values present and is NaN when there is none.  The additions are
    made from left to right, which is numpy's order below eight values;
    on longer columns numpy groups them pairwise, and the rounding of the
    result may differ from the one computed here. *)
Definition nansum64 (v : list float) : float :=
  fold_left PrimFloat.add (map fillna0 v) 0%float.
Definition nanmean64 (v : list float) : float :=
  let n := count_valid v in
  if 0 <? n then PrimFloat.div (nansum64 v) (float_of_Z n) else nan.

(** On a [float32] column the accumulator, the count and the quotient are
    binary32 values. *)
Definition nansum32 (v : list float) : float :=
  fold_left (λ a x, round32 (PrimFloat.add a x)) (map fillna0 v) 0%float.
Definition nanmean32 (v : list float) : float :=
  let n := count_valid v in
  if 0 <? n then round32 (PrimFloat.div (nansum32 v) (round32 (float_of_Z n))) else nan.

Definition series_sum (c : column) : result float :=
  match c with
  | Float64 v => Ok (nansum64 v)
  | Float32 v => Ok (nansum32 v)
  | _ => Unmodelled
  end.
Definition series_mean (c : column) : result float :=
  match c with
  | Float64 v => Ok (nanmean64 v)
  | Float32 v => Ok (nanmean32 v)
  | _ => Unmodelled
  end.

(** Whether a column has a floating dtype. *)
Definition float_dtype (c : column) : bool :=
  match c with
  | Float64 _ | Float32 _ => true
  | _ => false
  end.

(** ** Conversions (lines 28-29 and 121-125) *)

(** [series.astype('float32')]. *)
Definition astype_float32 (c : column) : result column :=
  match c with
  | Float64 v => Ok (Float32 (map round32 v))
  | Float32 v => Ok (Float32 v)
  | Datetime64 _ => Raise (TypeError "Cannot cast DatetimeArray to dtype float32")
  | Object _ => Unmodelled
  end.

(** [pd.to_datetime(series)]: a datetime column is returned as it is. *)
Definition to_datetime (c : column) : result column :=
  match c with
  | Datetime64 v => Ok (Datetime64 v)
  | _ => Unmodelled
  end.

Fixpoint assoc_set (name : string) (c : column) (cols : list (string * column))
  : list (string * column) :=
  match cols with
  | [] => [(name, c)]
  | (n, c0) :: rest =>
      if String.eqb name n then (n, c) :: rest else (n, c0) :: assoc_set name c rest
  end.

(** [df[name] = c]: replaces the column in place, or appends a new one. *)
Definition setitem (df : DataFrame) (name : string) (c : column) : DataFrame :=
  {| index := index df; columns := assoc_set name c (columns df) |}.

(** ** What the page shows *)

(** Python values handed to the display functions. *)
Inductive pyval : Type :=
| PyStr (s : string)
| PyInt (n : Z)
| PyFloat (x : float)
| PyStrList (l : list string)
| PyShape (s : nat * nat)
| PyExn (e : exn).

(** An f-string: literal text and formatted values.  The value is kept
    with its format specification; Python's rendering of it to characters
    is not part of the embedding. *)
Inductive frag : Type :=
| Lit (s : string)
| Fmt (v : pyval) (spec : string).
Definition fstring : Type := list frag.

(** The display calls of [app.py], in the order the script makes them. *)
Inductive ui : Type :=
| st_set_page_config
| st_markdown (body : string)
| st_title (body : string)
| st_error (msg : fstring)
| st_warning (msg : string)
| st_success (msg : string)
| st_write (label : string) (v : option pyval)
| st_text_input (label key : string)
| st_file_uploader (label : string)
| st_sidebar_header (body : string)
| st_sidebar_date_input (label : string) (value : Z * Z) (min_value max_value : Z)
| st_columns (n : nat)
| st_metric (label : string) (value : fstring)
| st_subheader (body : string)
| st_histogram (x : column) (nbins : Z)
| st_line (x : list Z) (y : list Z).

(** ** Session state, environment and script control *)

(** Values kept in [st.session_state] and [st.secrets]. *)
Inductive sval : Type :=
| SBool (b : bool)
| SStr (s : string).

Global Instance sval_eq_dec : EqDecision sval.
Proof. solve_decision. Defined.

(** The content of a path or of an upload: a Parquet table, or bytes that
    do not parse as one. *)
Inductive parquet : Type :=
| Table (df : DataFrame)
| Corrupt.

(** What a run of the script reads but does not change. *)
Record Env : Type := mkEnv {
  secrets : gmap string sval;
  files : gmap string parquet;
  uploaded_file : option parquet;
  cwd : string;
  clock : Z                      (* seconds *)
}.

(** An entry of an [st.cache_data] store: when it was stored, the value
    returned, and the display calls the function made, which are replayed
    on a hit. *)
Record cached (V : Type) : Type := mkCached {
  stored_at : Z;
  value : V;
  replay : list ui
}.
Arguments mkCached {V}.
Arguments stored_at {V}.
Arguments value {V}.
Arguments replay {V}.

(** What a run changes: the session state, the two caches of the loaders
    (they outlive the run and the session), the page, and [reads], the
    paths handed to [pd.read_parquet] so far, newest first. *)
Record Mem : Type := mkMem {
  session_state : gmap string sval;
  load_data_cache : gmap string (cached DataFrame);
  load_parquet_data_cache : gmap string (cached (option DataFrame));
  reads : list string;
  screen : list ui
}.

Definition with_session (f : gmap string sval → gmap string sval) (m : Mem) : Mem :=
  mkMem (f (session_state m)) (load_data_cache m) (load_parquet_data_cache m)
        (reads m) (screen m).
Definition with_load_data_cache
    (f : gmap string (cached DataFrame) → gmap string (cached DataFrame)) (m : Mem) : Mem :=
  mkMem (session_state m) (f (load_data_cache m)) (load_parquet_data_cache m)
        (reads m) (screen m).
Definition with_load_parquet_data_cache
    (f : gmap string (cached (option DataFrame)) → gmap string (cached (option DataFrame)))
    (m : Mem) : Mem :=
  mkMem (session_state m) (load_data_cache m) (f (load_parquet_data_cache m))
        (reads m) (screen m).
Definition with_reads (f : list string → list string) (m : Mem) : Mem :=
  mkMem (session_state m) (load_data_cache m) (load_parquet_data_cache m)
        (f (reads m)) (screen m).
Definition with_screen (f : list ui → list ui) (m : Mem) : Mem :=
  mkMem (session_state m) (load_data_cache m) (load_parquet_data_cache m)
        (reads m) (f (screen m)).

(** How a piece of the script ends: normally, by an exception, by
    [st.stop()] (whose exception is not a subclass of [Exception], so no
    [except Exception] clause catches it), or outside the embedding. *)
Inductive outcome (A : Type) : Type :=
| Done (a : A)
| Raised (e : exn)
| Stopped
| Beyond.
Arguments Done {A} a.
Arguments Raised {A} e.
Arguments Stopped {A}.
Arguments Beyond {A}.

Definition Script (A : Type) : Type := Env → Mem → outcome A * Mem.

Definition ret {A} (a : A) : Script A := λ _ m, (Done a, m).

Definition bind {A B} (c : Script A) (k : A → Script B) : Script B :=
  λ env m,
    match c env m with
    | (Done a, m') => k a env m'
    | (Raised e, m') => (Raised e, m')
    | (Stopped, m') => (Stopped, m')
    | (Beyond, m') => (Beyond, m')
    end.

Declare Scope script_scope.
Delimit Scope script_scope with script.
Notation "x <- c ;; k" := (bind c (λ x, k))
  (at level 100, c at next level, right associativity) : script_scope.
Notation "c ;; k" := (bind c (λ _, k))
  (at level 100, right associativity) : script_scope.
Local Open Scope script_scope.

Definition lift {A} (r : result A) : Script A :=
  λ _ m,
    match r with
    | Ok a => (Done a, m)
    | Raise e => (Raised e, m)
    | Unmodelled => (Beyond, m)
    end.

Definition raise {A} (e : exn) : Script A := λ _ m, (Raised e, m).
Definition st_stop {A} : Script A := λ _ m, (Stopped, m).
Definition beyond {A} : Script A := λ _ m, (Beyond, m).

(** [try: body except Exception as e: handler]. *)
Definition try_except {A} (body : Script A) (handler : exn → Script A) : Script A :=
  λ env m,
    match body env m with
    | (Raised e, m') => handler e env m'
    | r => r
    end.

Definition show (e : ui) : Script unit :=
  λ _ m, (Done (), with_screen (λ s, (s ++ [e])%list) m).

Definition ask {A} (f : Env → A) : Script A := λ env m, (Done (f env), m).
Definition get_session : Script (gmap string sval) := λ _ m, (Done (session_state m), m).
Definition set_session (key : string) (v : sval) : Script unit :=
  λ _ m, (Done (), with_session (insert key v) m).

(** [del st.session_state[key]]. *)
Definition del_session (key : string) : Script unit :=
  λ _ m,
    match session_state m !! key with
    | Some _ => (Done (), with_session (delete key) m)
    | None => (Raised (KeyError key), m)
    end.

(** [st.session_state[key]] and [st.secrets[key]]. *)
Definition session_get (key : string) : Script sval :=
  λ _ m,
    match session_state m !! key with
    | Some v => (Done v, m)
    | None => (Raised (KeyError key), m)
    end.
Definition secrets_get (key : string) : Script sval :=
  λ env m,
    match secrets env !! key with
    | Some v => (Done v, m)
    | None => (Raised (KeyError key), m)
    end.

(** ** The password check (lines 52-71) *)

(** Lines 57-63: the [on_change] callback of the password field.
    Streamlit runs it, with the typed text under the key ["password"],
    before the script is run again. *)
Definition password_entered : Script unit :=
  ss <- get_session;;
  if bool_decide (is_Some (ss !! "password")) then
    typed <- session_get "password";;
    secret <- secrets_get "password";;
    if bool_decide (typed = secret) then
      set_session "password_correct" (SBool true);;
      del_session "password"
    else
      set_session "password_correct" (SBool false)
  else ret ().

(** The user submits [typed] in the password field. *)
Definition submit_password (typed : string) : Script unit :=
  set_session "password" (SStr typed);;
  password_entered.

(** Truth value of a session value in an [if]. *)
Definition truthy (v : sval) : bool :=
  match v with
  | SBool b => b
  | SStr s => negb (String.eqb s "")
  end.

(** A keyed widget puts its value under its key in the session state:
    the empty string for a text field when nothing is there yet. *)
Definition register (key : string) (ss : gmap string sval) : gmap string sval :=
  if bool_decide (is_Some (ss !! key)) then ss else <[key := SStr ""]> ss.
Definition register_key (key : string) : Script unit :=
  λ _ m, (Done (), with_session (register key) m).

(** [st.text_input(label, key=key)]: the field is shown and registered. *)
Definition text_input (label key : string) : Script unit :=
  show (st_text_input label key);;
  register_key key.

Definition check_password : Script sval :=
  configured <- ask (λ env, bool_decide (is_Some (secrets env !! "password")));;
  if negb configured then
    show (st_error [Lit "Password not configured in secrets.toml"]);;
    ret (SBool false)
  else
    ss <- get_session;;
    if negb (bool_decide (is_Some (ss !! "password_correct"))) then
      text_input "Password" "password";;
      ret (SBool false)
    else
      session_get "password_correct".

(** ** [st.cache_data] *)

(** The live entry for [key], if any: an entry stored at time [t] with a
    time to live of [d] seconds is live while the clock is below [t + d];
    without a time to live it stays live. *)
Definition cache_hit {V} (ttl : option Z) (now : Z)
    (store : gmap string (cached V)) (key : string) : option (cached V) :=
  match store !! key with
  | Some e =>
      match ttl with
      | Some d => if now <? stored_at e + d then Some e else None
      | None => Some e
      end
  | None => None
  end.

(** The decorator, for a function of one string argument whose store is
    the field of [Mem] read by [get] and changed by [update].  On a hit the
    function is not run: the stored value is returned (a fresh copy of it,
    so what the caller does to the table leaves the store as it is) and the
    recorded display calls are replayed.  On a miss the function runs; its
    value is stored when it returns, and nothing is stored when it
    raises. *)
Definition cache_data {V} (ttl : option Z)
    (get : Mem → gmap string (cached V))
    (update : (gmap string (cached V) → gmap string (cached V)) → Mem → Mem)
    (f : string → Script V) (key : string) : Script V :=
  λ env m,
    match cache_hit ttl (clock env) (get m) key with
    | Some e => (Done (value e), with_screen (λ s, (s ++ replay e)%list) m)
    | None =>
        match f key env m with
        | (Done v, m') =>
            let shown := drop (length (screen m)) (screen m') in
            (Done v, update (insert key (mkCached (clock env) v shown)) m')
        | r => r
        end
    end.

(** ** Loading (lines 18-31 and 93-114) *)

Fixpoint project (cols : list (string * column)) (names : list string)
  : option (list (string * column)) :=
  match names with
  | [] => Some []
  | n :: rest =>
      match assoc n cols, project cols rest with
      | Some c, Some out => Some ((n, c) :: out)
      | _, _ => None
      end
  end.

(** [pd.read_parquet(path, columns=cols)]: the whole table, or the named
    columns in the order asked for; it fails when the path holds no
    Parquet table or lacks one of the named columns.  Every call is
    recorded in [reads]. *)
Definition read_parquet (path : string) (cols : option (list string)) : Script DataFrame :=
  λ env m,
    let m' := with_reads (cons path) m in
    match files env !! path with
    | Some (Table df) =>
        match cols with
        | None => (Done df, m')
        | Some names =>
            match project (columns df) names with
            | Some out => (Done (mkDataFrame (index df) out), m')
            | None => (Raised (ReadError path), m')
            end
        end
    | _ => (Raised (ReadError path), m')
    end.

(** [pd.read_parquet(uploaded_file)]. *)
Definition read_parquet_upload (f : parquet) : Script DataFrame :=
  match f with
  | Table df => ret df
  | Corrupt => raise (ReadError "uploaded_file")
  end.

Definition columns_to_use : list string :=
  ["pickup_datetime"; "dropoff_datetime"; "trip_miles";
   "base_passenger_fare"; "dispatching_base_num"].

(** Lines 19-31, the function under the decorator. *)
Definition load_data_wrapped (file_path : string) : Script DataFrame :=
  df <- read_parquet file_path (Some columns_to_use);;
  miles <- lift (c ← getitem df "trip_miles"; astype_float32 c);;
  let df := setitem df "trip_miles" miles in
  fare <- lift (c ← getitem df "base_passenger_fare"; astype_float32 c);;
  let df := setitem df "base_passenger_fare" fare in
  ret df.

(** Line 18: [@st.cache_data(ttl=3600)]. *)
Definition load_data : string → Script DataFrame :=
  cache_data (Some 3600) load_data_cache with_load_data_cache load_data_wrapped.

(** Lines 94-99, the function under the decorator. *)
Definition load_parquet_data_wrapped (file_path : string) : Script (option DataFrame) :=
  try_except
    (df <- read_parquet file_path None;; ret (Some df))
    (λ e, show (st_error [Lit "Error reading parquet file: "; Fmt (PyExn e) ""]);;
          ret None).

(** Line 93: [@st.cache_data], without a time to live. *)
Definition load_parquet_data : string → Script (option DataFrame) :=
  cache_data None load_parquet_data_cache with_load_parquet_data_cache
             load_parquet_data_wrapped.

Definition data_file : string := "data/Uber_cleaned_data.parquet".

(** Lines 103-114: the table the dashboard works on. *)
Definition acquire_df : Script (option DataFrame) :=
  let file_path := data_file in
  found <- ask (λ env, bool_decide (is_Some (files env !! file_path)));;
  if negb found then
    show (st_error [Lit "Data file not found at: "; Fmt (PyStr file_path) ""]);;
    dir <- ask cwd;;
    show (st_write "Current working directory:" (Some (PyStr dir)));;
    show (st_file_uploader "Upload your Uber dataset (Parquet format)");;
    up <- ask uploaded_file;;
    match up with
    | Some f => df <- read_parquet_upload f;; ret (Some df)
    | None => st_stop
    end
  else
    load_parquet_data file_path.

(** ** The dashboard (lines 116-177) *)

(** Lines 122-125. *)
Fixpoint convert_datetime_cols (cols : list string) (df : DataFrame) : result DataFrame :=
  match cols with
  | [] => Ok df
  | col :: rest =>
      if has_column df col then
        c ← getitem df col;
        c' ← to_datetime c;
        convert_datetime_cols rest (setitem df col c')
      else convert_datetime_cols rest df
  end.

Definition datetime_cols : list string := ["pickup_datetime"; "dropoff_datetime"].

Definition required_cols : list string :=
  ["pickup_datetime"; "dropoff_datetime"; "trip_miles"; "base_passenger_fare"].

(** Line 129. *)
Definition missing_cols (df : DataFrame) : list string :=
  List.filter (λ col, negb (has_column df col)) required_cols.

(** Lines 128-133. *)
Definition validate (df : DataFrame) : Script unit :=
  match missing_cols df with
  | [] => ret ()
  | missing =>
      show (st_error [Lit "Missing required columns: "; Fmt (PyStrList missing) ""]);;
      show (st_write "Available columns:" (Some (PyStrList (column_names df))));;
      st_stop
  end.

(** Lines 141-146.  The widget shows the span of the table and returns
    the dates picked in it: [selection] is the tuple the user has picked,
    if any; untouched, the widget returns its default [(min_date,
    max_date)].  A span with a NaT bound is not covered. *)
Definition date_input (lo hi : option Z) (selection : option (list Z)) : Script (list Z) :=
  match lo, hi with
  | Some lo, Some hi =>
      show (st_sidebar_date_input "Select Date Range" (lo, hi) lo hi);;
      ret (default [lo; hi] selection)
  | _, _ => beyond
  end.

(** Lines 154-162. *)
Definition metrics (filtered : DataFrame) : Script unit :=
  show (st_columns 4);;
  show (st_metric "Total Trips" [Fmt (PyInt (Z.of_nat (len filtered))) ","]);;
  avg_distance <- lift (c ← getitem filtered "trip_miles"; series_mean c);;
  show (st_metric "Avg Distance" [Fmt (PyFloat avg_distance) ".2f"; Lit " miles"]);;
  avg_fare <- lift (c ← getitem filtered "base_passenger_fare"; series_mean c);;
  show (st_metric "Avg Fare" [Lit "$"; Fmt (PyFloat avg_fare) ".2f"]);;
  revenue <- lift (c ← getitem filtered "base_passenger_fare"; series_sum c);;
  show (st_metric "Total Revenue" [Lit "$"; Fmt (PyFloat revenue) ",.2f"]).

(** Line 173. *)
Definition daily_trips (filtered : DataFrame) : result (list (Z * Z)) :=
  resample_D_size filtered "pickup_datetime".

(** Lines 165-177. *)
Definition charts (filtered : DataFrame) : Script unit :=
  if negb (empty filtered) then
    show (st_subheader "Trip Distance Distribution");;
    x <- lift (getitem filtered "trip_miles");;
    show (st_histogram x 50);;
    show (st_subheader "Trips Over Time");;
    daily <- lift (daily_trips filtered);;
    show (st_line (map fst daily) (map snd daily))
  else
    show (st_warning "No data available for the selected filters.").

(** Lines 117-177, the branch [df is not None]. *)
Definition dashboard (df : DataFrame) (selection : option (list Z)) : Script unit :=
  set_session "data_loaded" (SBool true);;
  show (st_success "Data loaded successfully!");;
  show (st_write "Data shape:" (Some (PyShape (shape df))));;
  df <- lift (convert_datetime_cols datetime_cols df);;
  validate df;;
  show (st_sidebar_header "📊 Filters");;
  lo <- lift (min_date df);;
  hi <- lift (max_date df);;
  date_range <- date_input lo hi selection;;
  filtered <- lift (filtered_df df date_range);;
  metrics filtered;;
  charts filtered.

(** ** The script (one run of [app.py]) *)

Definition custom_css : string :=
  "
    <style>
    .main {
        padding: 2rem;
        background-color: #f8f9fa;
    }
    .stTitle {
        color: #0066cc;
        font-size: 3rem !important;
        padding-bottom: 2rem;
    }
    </style>
".

(** Lines 183-189: the handler reads [sys.version], and [sys] is not
    imported. *)
Definition on_exception (e : exn) : Script unit :=
  show (st_error [Lit "An error occurred: "; Fmt (PyExn e) ""]);;
  show (st_write "Debug info:" None);;
  dir <- ask cwd;;
  show (st_write "Current directory:" (Some (PyStr dir)));;
  raise (NameError "sys").

(** A run of the script.  [selection] is what the user has picked in the
    date widget, if anything. *)
Definition app (selection : option (list Z)) : Script unit :=
  show st_set_page_config;;
  ss <- get_session;;
  (if negb (bool_decide (is_Some (ss !! "data_loaded")))
   then set_session "data_loaded" (SBool false) else ret ());;
  show (st_markdown custom_css);;
  ok <- check_password;;
  if truthy ok then
    show (st_title "🚗 Uber Trip Analysis - NYC");;
    try_except
      (df <- acquire_df;;
       match df with
       | Some df => dashboard df selection
       | None =>
           show (st_error [Lit "Failed to load data."]);;
           st_stop
       end)
      on_exception
  else
    show (st_warning "Please enter the correct password to view the dashboard.").

(** ** The rows of a table *)

(** One value of a table, with the dtype of its column. *)
Inductive cell : Type :=
| TimeCell (t : option Z)
| Float64Cell (x : float)
| Float32Cell (x : float)
| ObjectCell (s : string).

Definition col_cells (c : column) : list cell :=
  match c with
  | Datetime64 v => map TimeCell v
  | Float64 v => map Float64Cell v
  | Float32 v => map Float32Cell v
  | Object v => map ObjectCell v
  end.

(** The rows, in order: the label of each row with its value in every
    column, the columns in their order. *)
Fixpoint rows_of (idx : list Z) (cols : list (list cell)) : list (Z * list (option cell)) :=
  match idx with
  | [] => []
  | i :: idx' => (i, map head cols) :: rows_of idx' (map tail cols)
  end.
Definition rows (df : DataFrame) : list (Z * list (option cell)) :=
  rows_of (index df) (map (λ nc, col_cells (snd nc)) (columns df)).

(** ** What a piece of the script leaves alone *)

(** [quiet c]: [c] hands no path to [pd.read_parquet] and leaves both
    caches as they are.  [one_read c]: [c] reads no path, or the path of
    the data file once, and leaves the cache of [load_data] as it is. *)
Definition quiet {A} (c : Script A) : Prop :=
  ∀ env m,
    reads (snd (c env m)) = reads m ∧
    load_data_cache (snd (c env m)) = load_data_cache m ∧
    load_parquet_data_cache (snd (c env m)) = load_parquet_data_cache m.
Definition one_read {A} (c : Script A) : Prop :=
  ∀ env m,
    (reads (snd (c env m)) = reads m ∨ reads (snd (c env m)) = data_file :: reads m) ∧
    load_data_cache (snd (c env m)) = load_data_cache m.

(** [silent_at c env m]: run in [env] on [m], [c] hands no path to
    [pd.read_parquet] and leaves both caches as they are. *)
Definition silent_at {A} (c : Script A) (env : Env) (m : Mem) : Prop :=
  reads (snd (c env m)) = reads m ∧
  load_data_cache (snd (c env m)) = load_data_cache m ∧
  load_parquet_data_cache (snd (c env m)) = load_parquet_data_cache m.

(** ** Tables of the scenarios *)

Definition ymd (y m d : Z) : Z := days_from_civil y m d.

(** The three trips of the end-to-end scenario, picked up at midnight. *)
Definition scenario_df : DataFrame :=
  {| index := [0; 1; 2];
     columns :=
       [("pickup_datetime",
          Datetime64 [Some (midnight (ymd 2023 1 1)); Some (midnight (ymd 2023 1 2));
                      Some (midnight (ymd 2023 1 5))]);
        ("dropoff_datetime",
          Datetime64 [Some (midnight (ymd 2023 1 1)); Some (midnight (ymd 2023 1 2));
                      Some (midnight (ymd 2023 1 5))]);
        ("trip_miles", Float64 [5%float; 3%float; 1%float]);
        ("base_passenger_fare", Float64 [10%float; 8%float; 4%float]);
        ("dispatching_base_num", Object ["B02764"; "B02764"; "B02764"])] |}.

(** Two trips; the pickup instant of the second one is missing. *)
Definition nat_df : DataFrame :=
  {| index := [0; 1];
     columns :=
       [("pickup_datetime", Datetime64 [Some (midnight (ymd 2023 1 1)); None]);
        ("dropoff_datetime",
          Datetime64 [Some (midnight (ymd 2023 1 1)); Some (midnight (ymd 2023 1 1))]);
        ("trip_miles", Float64 [5%float; 3%float]);
        ("base_passenger_fare", Float64 [10%float; 8%float]);
        ("dispatching_base_num", Object ["B02764"; "B02764"])] |}.

(** The scenario table without its [dispatching_base_num] column. *)
Definition no_dispatch_df : DataFrame :=
  {| index := [0; 1; 2];
     columns :=
       [("pickup_datetime",
          Datetime64 [Some (midnight (ymd 2023 1 1)); Some (midnight (ymd 2023 1 2));
                      Some (midnight (ymd 2023 1 5))]);
        ("dropoff_datetime",
          Datetime64 [Some (midnight (ymd 2023 1 1)); Some (midnight (ymd 2023 1 2));
                      Some (midnight (ymd 2023 1 5))]);
        ("trip_miles", Float64 [5%float; 3%float; 1%float]);
        ("base_passenger_fare", Float64 [10%float; 8%float; 4%float])] |}.

(** The scenario table without its fare column. *)
Definition no_fare_df : DataFrame :=
  {| index := [0; 1; 2];
     columns :=
       [("pickup_datetime",
          Datetime64 [Some (midnight (ymd 2023 1 1)); Some (midnight (ymd 2023 1 2));
                      Some (midnight (ymd 2023 1 5))]);
        ("dropoff_datetime",
          Datetime64 [Some (midnight (ymd 2023 1 1)); Some (midnight (ymd 2023 1 2));
                      Some (midnight (ymd 2023 1 5))]);
        ("trip_miles", Float64 [5%float; 3%float; 1%float]);
        ("dispatching_base_num", Object ["B02764"; "B02764"; "B02764"])] |}.

(** A configured secret, and a session in which a password has been
    typed. *)
Definition secret_env : Env := mkEnv {["password" := SStr "s3cret"]} ∅ None "/app" 0.
Definition typed_mem (typed : string) : Mem :=
  mkMem {["password" := SStr typed]} ∅ ∅ [] [].

(** The data file holds the scenario table at time 0; one second before
    the hour is over the file is gone. *)
Definition file_env : Env := mkEnv ∅ {[data_file := Table scenario_df]} None "/app" 0.
Definition later_env : Env := mkEnv ∅ ∅ None "/app" 3599.

(** A file with a sixth column next to the five of the scenario, served
    to a session that has passed the password check. *)
Definition wide_df : DataFrame :=
  {| index := [0; 1; 2];
     columns :=
       (columns scenario_df ++
        [("request_datetime",
           Datetime64 [Some (midnight (ymd 2023 1 1)); Some (midnight (ymd 2023 1 2));
                       Some (midnight (ymd 2023 1 5))])])%list |}.
Definition wide_env : Env :=
  mkEnv {["password" := SStr "s3cret"]} {[data_file := Table wide_df]} None "/app" 0.
Definition authorized_mem : Mem :=
  mkMem {["password_correct" := SBool true]} ∅ ∅ [] [].

(** The data file is there but does not parse. *)
Definition corrupt_env : Env :=
  mkEnv {["password" := SStr "s3cret"]} {[data_file := Corrupt]} None "/app" 0.

(** An hour after [load_data] has cached the two-row table for the data
    file, the file holds the scenario table. *)
Definition stale_mem : Mem :=
  mkMem ∅ {[data_file := mkCached 0 nat_df []]} ∅ [data_file] [].
Definition hour_later_env : Env :=
  mkEnv ∅ {[data_file := Table scenario_df]} None "/app" 3600.

(** An open session for which [load_parquet_data] has already cached the
    scenario table. *)
Definition warm_mem : Mem :=
  mkMem {["password_correct" := SBool true]} ∅
        {[data_file := mkCached 0 (Some scenario_df) []]} [data_file] [].

(** Two trips, neither with a pickup instant. *)
Definition all_nat_df : DataFrame :=
  {| index := [0; 1];
     columns :=
       [("pickup_datetime", Datetime64 [None; None]);
        ("dropoff_datetime",
          Datetime64 [Some (midnight (ymd 2023 1 1)); Some (midnight (ymd 2023 1 1))]);
        ("trip_miles", Float64 [5%float; 3%float]);
        ("base_passenger_fare", Float64 [10%float; 8%float]);
        ("dispatching_base_num", Object ["B02764"; "B02764"])] |}.

(** The scenario table with its pickup instants left as text. *)
Definition text_df : DataFrame :=
  {| index := [0; 1; 2];
     columns :=
       [("pickup_datetime", Object ["2023-01-01"; "2023-01-02"; "not a date"]);
        ("dropoff_datetime",
          Datetime64 [Some (midnight (ymd 2023 1 1)); Some (midnight (ymd 2023 1 2));
                      Some (midnight (ymd 2023 1 5))]);
        ("trip_miles", Float64 [5%float; 3%float; 1%float]);
        ("base_passenger_fare", Float64 [10%float; 8%float; 4%float]);
        ("dispatching_base_num", Object ["B02764"; "B02764"; "B02764"])] |}.

Definition empty_env : Env := mkEnv ∅ ∅ None "/app" 0.
Definition empty_mem : Mem := mkMem ∅ ∅ ∅ [] [].

(** * Properties *)

(** ** Dates *)

Example ymd_epoch : ymd 1970 1 1 = 0 ∧ ymd 1969 12 31 = -1 ∧ ymd 2000 3 1 = 11017.
Proof. repeat split. Qed.

Example ymd_scenario :
  ymd 2023 1 1 = 19358 ∧ ymd 2023 1 5 = ymd 2023 1 1 + 4 ∧
  dt_date (midnight (ymd 2023 1 1) + 23 * 3600 * 1000000000) = ymd 2023 1 1.
Proof. repeat split. Qed.

(** ** Selection by a mask *)

Lemma length_select_le {A} (mask : list bool) (l : list A) :
  (length (select mask l) ≤ length l)%nat.
Proof.
  revert l; induction mask as [|b mask IH]; intros [|x l]; simpl; try lia.
  specialize (IH l). destruct b; simpl; lia.
Qed.

Lemma length_select_same {A B} (mask : list bool) (l1 : list A) (l2 : list B) :
  length l1 = length l2 → length (select mask l1) = length (select mask l2).
Proof.
  revert l1 l2; induction mask as [|b mask IH]; intros [|x l1] [|y l2] E;
    simpl in *; try done.
  destruct b; simpl; auto.
Qed.

Lemma select_pred {A} (p : A → bool) (l : list A) :
  Forall (λ x, p x = true) (select (map p l) l).
Proof.
  induction l as [|x l IH]; simpl; [constructor|].
  destruct (p x) eqn:E; [constructor|]; done.
Qed.

Lemma select_all {A} (p : A → bool) (l : list A) :
  Forall (λ x, p x = true) l → select (map p l) l = l.
Proof.
  induction 1 as [|x l Hx _ IH]; simpl; [done|]. by rewrite Hx, IH.
Qed.

Lemma select_lookup_false {A} (p : A → bool) (l : list A) (i : nat) (x : A) :
  l !! i = Some x → p x = false → map p l !! i = Some false.
Proof.
  intros Hi Hp. change (map p l) with (p <$> l).
  by rewrite list_lookup_fmap, Hi; simpl; rewrite Hp.
Qed.

Lemma mask_and_map {A} (f g : A → bool) (l : list A) :
  mask_and (map f l) (map g l) = map (λ x, f x && g x) l.
Proof. induction l as [|x l IH]; simpl; [done|]. by rewrite IH. Qed.

(** ** Tables *)

Lemma assoc_boolean_index (mask : list bool) (name : string) cols :
  assoc name (map (λ nc, (fst nc, col_select mask (snd nc))) cols)
  = option_map (col_select mask) (assoc name cols).
Proof.
  induction cols as [|[n c] cols IH]; simpl; [done|].
  destruct (String.eqb name n); done.
Qed.

Lemma getitem_boolean_index (df : DataFrame) (mask : list bool) (name : string) c :
  getitem df name = Ok c →
  getitem (boolean_index df mask) name = Ok (col_select mask c).
Proof.
  unfold getitem, boolean_index; simpl. rewrite assoc_boolean_index.
  destruct (assoc name (columns df)); simpl; congruence.
Qed.

Lemma assoc_In (name : string) cols c :
  assoc name cols = Some c → In (name, c) cols.
Proof.
  induction cols as [|[n c0] cols IH]; simpl; [done|].
  destruct (String.eqb name n) eqn:E.
  - apply String.eqb_eq in E. intros [= ->]. left. by subst.
  - intros H. right. auto.
Qed.

Lemma wf_getitem (df : DataFrame) (name : string) c :
  wf df → getitem df name = Ok c → col_len c = len df.
Proof.
  unfold wf, getitem. intros Hwf Hget.
  destruct (assoc name (columns df)) as [c0|] eqn:E; [|done].
  injection Hget as ->. apply assoc_In in E.
  rewrite Forall_forall in Hwf. apply (Hwf (name, c)). by apply list_elem_of_In.
Qed.

Lemma all_nat_In (v : list (option Z)) (t0 : Z) :
  In (Some t0) v → all_nat v = false.
Proof.
  intros Hin. destruct v as [|x v]; [done|]. unfold all_nat.
  apply not_true_is_false. intros H. rewrite forallb_forall in H.
  by specialize (H _ Hin).
Qed.

Lemma all_nat_is_Some (v : list (option Z)) :
  Forall is_Some v → all_nat v = false.
Proof.
  destruct v as [|x v]; [done|]. intros H.
  inversion H as [|?? [t ->] _]; subst. apply (all_nat_In _ t). by left.
Qed.

(** On a column that is not made of missing values alone, the mask is the
    test of the interval on each row. *)
Lemma date_mask_eq (df : DataFrame) v (start_date end_date : Z) :
  getitem df "pickup_datetime" = Ok (Datetime64 v) →
  all_nat v = false →
  date_mask df start_date end_date = Ok (map (in_interval start_date end_date) v).
Proof.
  intros Hget Hv. unfold date_mask. rewrite Hget. simpl. rewrite Hv. simpl.
  rewrite !map_map, mask_and_map. done.
Qed.

Lemma filter_data_eq (df : DataFrame) v (start_date end_date : Z) :
  getitem df "pickup_datetime" = Ok (Datetime64 v) →
  all_nat v = false →
  filter_data df start_date end_date
  = Ok (boolean_index df (map (in_interval start_date end_date) v)).
Proof.
  intros Hget Hv. unfold filter_data. by rewrite (date_mask_eq _ v).
Qed.

(** On a column with rows and no timestamp the comparison raises. *)
Lemma filter_data_all_nat (df : DataFrame) v (start_date end_date : Z) :
  getitem df "pickup_datetime" = Ok (Datetime64 v) →
  all_nat v = true →
  filter_data df start_date end_date
  = Raise (TypeError "Invalid comparison between dtype=datetime64[ns] and date").
Proof.
  intros Hget Hv. unfold filter_data, date_mask. rewrite Hget. simpl.
  by rewrite Hv.
Qed.

(** When the filter returns, the column is not made of missing values
    alone. *)
Lemma filter_data_returns (df out : DataFrame) v (start_date end_date : Z) :
  getitem df "pickup_datetime" = Ok (Datetime64 v) →
  filter_data df start_date end_date = Ok out →
  all_nat v = false.
Proof.
  intros Hget Hf. destruct (all_nat v) eqn:E; [|done].
  by rewrite (filter_data_all_nat df v _ _ Hget E) in Hf.
Qed.

(** The inline filter of lines 149-151 is [filter_data] on the two dates of
    the tuple. *)
Lemma filtered_df_filter_data (df : DataFrame) (start_date end_date : Z) :
  filtered_df df [start_date; end_date] = filter_data df start_date end_date.
Proof.
  unfold filtered_df, filter_data, date_mask.
  destruct (getitem df "pickup_datetime") as [c| |]; simpl; try done.
  destruct (dt_date_series c) as [d| |]; simpl; try done.
  destruct (series_ge d start_date); simpl; try done.
  destruct (series_le d end_date); done.
Qed.

Lemma in_interval_spec (start_date end_date : Z) (x : option Z) :
  in_interval start_date end_date x = true ↔
  ∃ ts, x = Some ts ∧ start_date ≤ dt_date ts ≤ end_date.
Proof.
  unfold in_interval. destruct x as [ts|]; simpl.
  - rewrite andb_true_iff, !Z.leb_le. split.
    + intros [??]. exists ts. split; [done|lia].
    + intros (? & [= <-] & ?). lia.
  - split; [done|]. intros (? & ? & _). done.
Qed.

(** C1.  For every table that has a date span - a datetime pickup column
    with at least one pickup instant - and every interval
    [start_date, end_date], the filter returns a table (both as
    [filter_data] and as the inline filter of the dashboard) in which
    every row has a pickup date d with start_date <= d <= end_date, and
    which has at most as many rows as the input.  The interval need not
    lie within the span of the table for this. *)
Theorem filter_rows_within_interval (df : DataFrame) (v : list (option Z))
    (t0 start_date end_date : Z) :
  wf df →
  getitem df "pickup_datetime" = Ok (Datetime64 v) →
  In (Some t0) v →
  ∃ out v',
    filter_data df start_date end_date = Ok out ∧
    filtered_df df [start_date; end_date] = Ok out ∧
    getitem out "pickup_datetime" = Ok (Datetime64 v') ∧
    length v' = len out ∧
    Forall (λ x, ∃ ts, x = Some ts ∧ start_date ≤ dt_date ts ≤ end_date) v' ∧
    (len out ≤ len df)%nat.
Proof.
  intros Hwf Hget Hin.
  set (mask := map (in_interval start_date end_date) v).
  exists (boolean_index df mask), (select mask v).
  pose proof (filter_data_eq df v start_date end_date Hget (all_nat_In v t0 Hin)) as Hf.
  split; [exact Hf|].
  split; [by rewrite filtered_df_filter_data|].
  split; [exact (getitem_boolean_index df mask _ _ Hget)|].
  split.
  { unfold len; simpl. apply length_select_same.
    exact (wf_getitem df _ _ Hwf Hget). }
  split.
  { eapply Forall_impl; [apply select_pred|].
    intros x Hx. by apply in_interval_spec. }
  unfold len; simpl. apply length_select_le.
Qed.

Lemma wf_scenario_df : wf scenario_df.
Proof. unfold wf. repeat constructor. Qed.

Lemma filter_rows_within_interval_witness :
  wf scenario_df ∧
  getitem scenario_df "pickup_datetime"
    = Ok (Datetime64 [Some (midnight (ymd 2023 1 1)); Some (midnight (ymd 2023 1 2));
                      Some (midnight (ymd 2023 1 5))]) ∧
  In (Some (midnight (ymd 2023 1 1)))
     [Some (midnight (ymd 2023 1 1)); Some (midnight (ymd 2023 1 2));
      Some (midnight (ymd 2023 1 5))] ∧
  ∃ out v',
    filter_data scenario_df (ymd 2023 1 2) (ymd 2023 1 5) = Ok out ∧
    filtered_df scenario_df [ymd 2023 1 2; ymd 2023 1 5] = Ok out ∧
    getitem out "pickup_datetime" = Ok (Datetime64 v') ∧
    length v' = len out ∧
    Forall (λ x, ∃ ts, x = Some ts ∧ ymd 2023 1 2 ≤ dt_date ts ≤ ymd 2023 1 5) v' ∧
    (len out ≤ len scenario_df)%nat.
Proof.
  assert (In (Some (midnight (ymd 2023 1 1)))
            [Some (midnight (ymd 2023 1 1)); Some (midnight (ymd 2023 1 2));
             Some (midnight (ymd 2023 1 5))]) as Hin by (by left).
  split; [exact wf_scenario_df|]. split; [reflexivity|]. split; [exact Hin|].
  apply (filter_rows_within_interval scenario_df
           [Some (midnight (ymd 2023 1 1)); Some (midnight (ymd 2023 1 2));
            Some (midnight (ymd 2023 1 5))] (midnight (ymd 2023 1 1))
           (ymd 2023 1 2) (ymd 2023 1 5)).
  - exact wf_scenario_df.
  - reflexivity.
  - exact Hin.
Defined.

(** ** Minimum and maximum of a datetime column *)

Lemma fold_omin_spec (v : list (option Z)) (a : option Z) :
  match fold_left omin v a with
  | Some m =>
      (a = Some m ∨ In (Some m) v) ∧
      (∀ x, a = Some x → m ≤ x) ∧ (∀ t, In (Some t) v → m ≤ t)
  | None => a = None ∧ ∀ t, ¬ In (Some t) v
  end.
Proof.
  revert a; induction v as [|x v IH]; intros a; simpl.
  - destruct a; [|by auto]. split; [by left|]. split; [|done]. intros ? [= <-]. lia.
  - specialize (IH (omin a x)).
    destruct (fold_left omin v (omin a x)) as [m|].
    + destruct IH as (Hin & Ha & Hv). split; [|split].
      * destruct Hin as [E|Hin]; [|by auto].
        destruct a as [a0|], x as [x0|]; simpl in E; try (by auto).
        injection E as <-. destruct (Z.min_spec a0 x0) as [[_ ->]|[_ ->]]; auto.
      * intros y ->. destruct x as [x0|]; simpl in Ha.
        -- specialize (Ha _ eq_refl). lia.
        -- exact (Ha _ eq_refl).
      * intros t [->|Hin']; [|by auto].
        destruct a as [a0|]; simpl in Ha; specialize (Ha _ eq_refl); lia.
    + destruct IH as (E & Hv). destruct a, x; simpl in E; try done.
      split; [done|]. intros t [?|?]; [done|]. by eapply Hv.
Qed.

Lemma fold_omax_spec (v : list (option Z)) (a : option Z) :
  match fold_left omax v a with
  | Some m =>
      (a = Some m ∨ In (Some m) v) ∧
      (∀ x, a = Some x → x ≤ m) ∧ (∀ t, In (Some t) v → t ≤ m)
  | None => a = None ∧ ∀ t, ¬ In (Some t) v
  end.
Proof.
  revert a; induction v as [|x v IH]; intros a; simpl.
  - destruct a; [|by auto]. split; [by left|]. split; [|done]. intros ? [= <-]. lia.
  - specialize (IH (omax a x)).
    destruct (fold_left omax v (omax a x)) as [m|].
    + destruct IH as (Hin & Ha & Hv). split; [|split].
      * destruct Hin as [E|Hin]; [|by auto].
        destruct a as [a0|], x as [x0|]; simpl in E; try (by auto).
        injection E as <-. destruct (Z.max_spec a0 x0) as [[_ ->]|[_ ->]]; auto.
      * intros y ->. destruct x as [x0|]; simpl in Ha.
        -- specialize (Ha _ eq_refl). lia.
        -- exact (Ha _ eq_refl).
      * intros t [->|Hin']; [|by auto].
        destruct a as [a0|]; simpl in Ha; specialize (Ha _ eq_refl); lia.
    + destruct IH as (E & Hv). destruct a, x; simpl in E; try done.
      split; [done|]. intros t [?|?]; [done|]. by eapply Hv.
Qed.

(** A column with at least one timestamp has a minimum and a maximum, both
    taken among its timestamps and bounding all of them. *)
Lemma series_min_max (v : list (option Z)) (t0 : Z) :
  In (Some t0) v →
  ∃ lo hi, series_min v = Some lo ∧ series_max v = Some hi ∧
           In (Some lo) v ∧ In (Some hi) v ∧
           ∀ t, In (Some t) v → lo ≤ t ≤ hi.
Proof.
  intros Hin. unfold series_min, series_max.
  pose proof (fold_omin_spec v None) as Hmin.
  pose proof (fold_omax_spec v None) as Hmax.
  destruct (fold_left omin v None) as [lo|]; [|by destruct Hmin as [_ H]; destruct (H _ Hin)].
  destruct (fold_left omax v None) as [hi|]; [|by destruct Hmax as [_ H]; destruct (H _ Hin)].
  destruct Hmin as ([?|?] & _ & Hlo); [done|].
  destruct Hmax as ([?|?] & _ & Hhi); [done|].
  exists lo, hi. repeat split; auto.
Qed.

Lemma dt_date_mono (a b : Z) : a ≤ b → dt_date a ≤ dt_date b.
Proof. intros. unfold dt_date. apply Z.div_le_mono; [done|done]. Qed.

Lemma dt_date_midnight (d : Z) : dt_date (midnight d) = d.
Proof. unfold dt_date, midnight. by apply Z.div_mul. Qed.

(** A column without NaT, seen as its timestamps. *)
Lemma no_nat_first (v : list (option Z)) :
  v ≠ [] → Forall is_Some v → ∃ t0, In (Some t0) v.
Proof.
  destruct v as [|x v]; [done|]. intros _ H. inversion H as [|?? [t0 ->] _]; subst.
  exists t0. by left.
Qed.

(** ** The filter on the full span, and rows without a pickup instant *)

(** C9, as the code has it.  For every table with at least one row whose
    pickup column has no missing value, the filter on [min pickup date,
    max pickup date] returns a table with as many rows as the input. *)
Theorem full_span_filter_keeps_rows (df : DataFrame) (v : list (option Z)) :
  wf df →
  getitem df "pickup_datetime" = Ok (Datetime64 v) →
  v ≠ [] →
  Forall is_Some v →
  ∃ lo hi out,
    min_date df = Ok (Some lo) ∧ max_date df = Ok (Some hi) ∧
    filter_data df lo hi = Ok out ∧
    filtered_df df [lo; hi] = Ok out ∧
    len out = len df.
Proof.
  intros Hwf Hget Hne Hall.
  destruct (no_nat_first v Hne Hall) as [t0 Ht0].
  destruct (series_min_max v t0 Ht0) as (lo & hi & Hmin & Hmax & _ & _ & Hb).
  set (mask := map (in_interval (dt_date lo) (dt_date hi)) v).
  exists (dt_date lo), (dt_date hi), (boolean_index df mask).
  split; [by unfold min_date; rewrite Hget; simpl; rewrite Hmin|].
  split; [by unfold max_date; rewrite Hget; simpl; rewrite Hmax|].
  pose proof (filter_data_eq df v (dt_date lo) (dt_date hi) Hget
                (all_nat_is_Some v Hall)) as Hf.
  split; [exact Hf|]. split; [by rewrite filtered_df_filter_data|].
  assert (select mask v = v) as Hsel.
  { apply select_all. rewrite Forall_forall. intros x Hx.
    rewrite Forall_forall in Hall. destruct (Hall x Hx) as [t ->].
    apply in_interval_spec. exists t. split; [done|].
    apply list_elem_of_In in Hx. destruct (Hb t Hx).
    split; by apply dt_date_mono. }
  pose proof (wf_getitem df _ _ Hwf Hget) as Hlen. simpl in Hlen.
  unfold len at 1; simpl.
  rewrite (length_select_same mask (index df) v) by (symmetry; exact Hlen).
  by rewrite Hsel.
Qed.

Lemma wf_nat_df : wf nat_df.
Proof. unfold wf. repeat constructor. Qed.

Lemma full_span_filter_keeps_rows_witness :
  wf scenario_df ∧
  ∃ lo hi out,
    min_date scenario_df = Ok (Some lo) ∧ max_date scenario_df = Ok (Some hi) ∧
    filter_data scenario_df lo hi = Ok out ∧
    filtered_df scenario_df [lo; hi] = Ok out ∧
    len out = len scenario_df.
Proof.
  split; [exact wf_scenario_df|].
  apply (full_span_filter_keeps_rows scenario_df
           [Some (midnight (ymd 2023 1 1)); Some (midnight (ymd 2023 1 2));
            Some (midnight (ymd 2023 1 5))]).
  - exact wf_scenario_df.
  - reflexivity.
  - discriminate.
  - repeat constructor; eexists; reflexivity.
Defined.

(** C9 as stated fails: on a table of two rows, one of them without a
    pickup instant, the filter on [min pickup date, max pickup date] keeps
    one row. *)
Lemma full_span_filter_drops_missing :
  wf nat_df ∧
  min_date nat_df = Ok (Some (ymd 2023 1 1)) ∧
  max_date nat_df = Ok (Some (ymd 2023 1 1)) ∧
  ∃ out, filter_data nat_df (ymd 2023 1 1) (ymd 2023 1 1) = Ok out ∧
         len out = 1%nat ∧ len nat_df = 2%nat ∧ len out ≠ len nat_df.
Proof.
  split; [exact wf_nat_df|]. split; [reflexivity|]. split; [reflexivity|].
  eexists. split; [reflexivity|]. repeat split. discriminate.
Qed.

(** C10, as the code has it.  On a table whose pickup column holds at
    least one instant, for every interval, both comparisons of the mask
    are false on a missing pickup instant: the mask is [false] at each row
    whose pickup instant is missing, the filter returns, and the pickup
    column of the filtered table has no missing value.  On a table with
    rows whose pickup instants are all missing the comparison raises a
    [TypeError] instead, and on a pickup column that is not a datetime
    column (text left unparsed, say) the [.dt] accessor raises an
    [AttributeError]: there the filter returns nothing. *)
Theorem missing_pickup_never_selected (df : DataFrame) (v : list (option Z))
    (t0 start_date end_date : Z) :
  getitem df "pickup_datetime" = Ok (Datetime64 v) →
  In (Some t0) v →
  date_ge start_date None = false ∧ date_le end_date None = false ∧
  (∃ mask out v',
     date_mask df start_date end_date = Ok mask ∧
     length mask = length v ∧
     (∀ i, v !! i = Some None → mask !! i = Some false) ∧
     filter_data df start_date end_date = Ok out ∧
     filtered_df df [start_date; end_date] = Ok out ∧
     out = boolean_index df mask ∧
     getitem out "pickup_datetime" = Ok (Datetime64 v') ∧
     Forall is_Some v') ∧
  (∀ df' v',
     getitem df' "pickup_datetime" = Ok (Datetime64 v') → all_nat v' = true →
     filter_data df' start_date end_date
       = Raise (TypeError "Invalid comparison between dtype=datetime64[ns] and date") ∧
     filtered_df df' [start_date; end_date]
       = Raise (TypeError "Invalid comparison between dtype=datetime64[ns] and date")) ∧
  (∀ df' c,
     getitem df' "pickup_datetime" = Ok c → (∀ v', c ≠ Datetime64 v') →
     filter_data df' start_date end_date = Raise (AttributeError "dt") ∧
     filtered_df df' [start_date; end_date] = Raise (AttributeError "dt")).
Proof.
  intros Hget Hin. split; [done|]. split; [done|].
  pose proof (all_nat_In v t0 Hin) as Hv.
  split; [|split].
  - set (mask := map (in_interval start_date end_date) v).
    exists mask, (boolean_index df mask), (select mask v).
    split; [exact (date_mask_eq df v _ _ Hget Hv)|].
    split; [by unfold mask; rewrite length_map|].
    split; [intros i Hi; by eapply select_lookup_false|].
    pose proof (filter_data_eq df v start_date end_date Hget Hv) as Hf.
    split; [exact Hf|]. split; [by rewrite filtered_df_filter_data|].
    split; [done|].
    split; [exact (getitem_boolean_index df mask _ _ Hget)|].
    eapply Forall_impl; [apply select_pred|].
    intros x Hx. apply in_interval_spec in Hx as (ts & -> & _). by eexists.
  - intros df' v' Hget' Hall.
    rewrite filtered_df_filter_data. split; by apply (filter_data_all_nat df' v').
  - intros df' c Hget' Hc. rewrite filtered_df_filter_data.
    unfold filter_data, date_mask. rewrite Hget'. simpl.
    destruct c as [v'| | |]; [by destruct (Hc v')|done..].
Qed.

Lemma missing_pickup_never_selected_witness :
  getitem nat_df "pickup_datetime"
    = Ok (Datetime64 [Some (midnight (ymd 2023 1 1)); None]) ∧
  In (Some (midnight (ymd 2023 1 1))) [Some (midnight (ymd 2023 1 1)); None] ∧
  date_ge (ymd 2023 1 1) None = false ∧ date_le (ymd 2023 1 1) None = false ∧
  (∃ mask out v',
     date_mask nat_df (ymd 2023 1 1) (ymd 2023 1 1) = Ok mask ∧
     length mask = length [Some (midnight (ymd 2023 1 1)); None] ∧
     (∀ i, [Some (midnight (ymd 2023 1 1)); None] !! i = Some None →
           mask !! i = Some false) ∧
     filter_data nat_df (ymd 2023 1 1) (ymd 2023 1 1) = Ok out ∧
     filtered_df nat_df [ymd 2023 1 1; ymd 2023 1 1] = Ok out ∧
     out = boolean_index nat_df mask ∧
     getitem out "pickup_datetime" = Ok (Datetime64 v') ∧
     Forall is_Some v') ∧
  (∀ df' v',
     getitem df' "pickup_datetime" = Ok (Datetime64 v') → all_nat v' = true →
     filter_data df' (ymd 2023 1 1) (ymd 2023 1 1)
       = Raise (TypeError "Invalid comparison between dtype=datetime64[ns] and date") ∧
     filtered_df df' [ymd 2023 1 1; ymd 2023 1 1]
       = Raise (TypeError "Invalid comparison between dtype=datetime64[ns] and date")) ∧
  (∀ df' c,
     getitem df' "pickup_datetime" = Ok c → (∀ v', c ≠ Datetime64 v') →
     filter_data df' (ymd 2023 1 1) (ymd 2023 1 1) = Raise (AttributeError "dt") ∧
     filtered_df df' [ymd 2023 1 1; ymd 2023 1 1] = Raise (AttributeError "dt")).
Proof.
  assert (In (Some (midnight (ymd 2023 1 1))) [Some (midnight (ymd 2023 1 1)); None])
    as Hin by (by left).
  split; [reflexivity|]. split; [exact Hin|].
  apply (missing_pickup_never_selected nat_df
           [Some (midnight (ymd 2023 1 1)); None] (midnight (ymd 2023 1 1))
           (ymd 2023 1 1) (ymd 2023 1 1)); [reflexivity|exact Hin].
Defined.

(** C10 as stated fails: on a table of two rows, both without a pickup
    instant, the comparisons of the mask do not evaluate to false; they
    raise a [TypeError], so that the filter, on the full span or on any
    other interval, returns no table instead of silently dropping the
    rows.  A pickup column of unparsed text makes it raise as well. *)
Lemma all_missing_filter_raises :
  len all_nat_df = 2%nat ∧
  getitem all_nat_df "pickup_datetime" = Ok (Datetime64 [None; None]) ∧
  date_mask all_nat_df (ymd 2023 1 1) (ymd 2023 1 1)
    = Raise (TypeError "Invalid comparison between dtype=datetime64[ns] and date") ∧
  filter_data all_nat_df (ymd 2023 1 1) (ymd 2023 1 1)
    = Raise (TypeError "Invalid comparison between dtype=datetime64[ns] and date") ∧
  filtered_df all_nat_df [ymd 2023 1 1; ymd 2023 1 1]
    = Raise (TypeError "Invalid comparison between dtype=datetime64[ns] and date") ∧
  (∀ out, filter_data all_nat_df (ymd 2023 1 1) (ymd 2023 1 1) ≠ Ok out) ∧
  filter_data text_df (ymd 2023 1 1) (ymd 2023 1 1) = Raise (AttributeError "dt").
Proof.
  split; [reflexivity|]. split; [reflexivity|]. split; [reflexivity|].
  split; [reflexivity|]. split; [reflexivity|]. split; [discriminate|reflexivity].
Qed.

(** ** Daily counts *)

Lemma total_indicator (n : nat) (m k : Z) :
  total (map (λ d, if k =? d then 1 else 0) (seqZ m (Z.of_nat n)))
  = if bool_decide (m ≤ k < m + Z.of_nat n) then 1 else 0.
Proof.
  revert m; induction n as [|n IH]; intros m.
  - rewrite seqZ_nil by lia. simpl. rewrite bool_decide_eq_false_2 by lia. done.
  - rewrite seqZ_cons by lia. simpl.
    replace (Z.pred (Z.of_nat (S n))) with (Z.of_nat n) by lia.
    rewrite IH. destruct (Z.eqb_spec k m) as [->|Hne].
    + rewrite bool_decide_eq_false_2 by lia.
      rewrite bool_decide_eq_true_2 by lia. done.
    + destruct (bool_decide (Z.succ m ≤ k < Z.succ m + Z.of_nat n)) eqn:E.
      * apply bool_decide_eq_true_1 in E. rewrite bool_decide_eq_true_2 by lia. done.
      * apply bool_decide_eq_false_1 in E. rewrite bool_decide_eq_false_2 by lia. done.
Qed.

Lemma total_map_add {A} (f g : A → Z) (l : list A) :
  total (map (λ d, f d + g d) l) = total (map f l) + total (map g l).
Proof. induction l as [|x l IH]; simpl; [done|]. rewrite IH. lia. Qed.

Lemma total_map_zero {A} (l : list A) : total (map (λ _, 0) l) = 0.
Proof. induction l as [|x l IH]; simpl; [done|]. by rewrite IH. Qed.

Lemma count_on_day_cons (d : Z) (x : option Z) (v : list (option Z)) :
  count_on_day d (x :: v) = (if on_day d x then 1 else 0) + count_on_day d v.
Proof.
  unfold count_on_day. simpl. destruct (on_day d x); simpl length; lia.
Qed.

Lemma count_on_day_nonneg (d : Z) (v : list (option Z)) : 0 ≤ count_on_day d v.
Proof. unfold count_on_day. lia. Qed.

(** Over a range of days that contains the date of every timestamp, the
    counts add up to the number of timestamps. *)
Lemma total_counts (n : nat) (d0 : Z) (v : list (option Z)) :
  Forall (λ x, ∃ ts, x = Some ts ∧ d0 ≤ dt_date ts < d0 + Z.of_nat n) v →
  total (map (λ d, count_on_day d v) (seqZ d0 (Z.of_nat n))) = Z.of_nat (length v).
Proof.
  induction 1 as [|x v (ts & -> & Hts) _ IH].
  - simpl. apply total_map_zero.
  - erewrite map_ext; [|intros d; apply count_on_day_cons].
    rewrite total_map_add, IH. simpl on_day.
    rewrite total_indicator, bool_decide_eq_true_2 by lia.
    simpl length. lia.
Qed.

Lemma label_dates_resample (l : list Z) (v : list (option Z)) :
  label_dates (map (λ d, (midnight d, count_on_day d v)) l) = l.
Proof.
  unfold label_dates. rewrite map_map. simpl.
  erewrite map_ext; [apply map_id|]. intros d. apply dt_date_midnight.
Qed.

Lemma count_occ_seqZ (m n d : Z) :
  m ≤ d < m + n → count_occ Z.eq_dec (seqZ m n) d = 1%nat.
Proof.
  intros Hd. apply NoDup_count_occ'; [apply NoDup_ListNoDup, NoDup_seqZ|].
  apply list_elem_of_In, elem_of_seqZ. lia.
Qed.

(** The entries of the resampling of a column without NaT whose earliest
    and latest instants are [first] and [last]: one per day of the span,
    none negative, adding up to the length of the column. *)
Lemma dense_counts (v : list (option Z)) (first last : Z) :
  Forall is_Some v →
  (∀ t, In (Some t) v → first ≤ t ≤ last) →
  dt_date first ≤ dt_date last →
  let series := map (λ d, (midnight d, count_on_day d v))
                    (seqZ (dt_date first) (dt_date last - dt_date first + 1)) in
  (∀ d, dt_date first ≤ d ≤ dt_date last →
        count_occ Z.eq_dec (label_dates series) d = 1%nat) ∧
  Forall (λ e, 0 ≤ snd e) series ∧
  total (map snd series) = Z.of_nat (length v).
Proof.
  intros Hall Hb Hle series. unfold series. split; [|split].
  - intros d Hd. rewrite label_dates_resample. apply count_occ_seqZ. lia.
  - rewrite Forall_forall. intros e He.
    apply list_elem_of_In, in_map_iff in He as (d & <- & _). simpl.
    apply count_on_day_nonneg.
  - rewrite map_map. simpl.
    replace (dt_date last - dt_date first + 1)
      with (Z.of_nat (Z.to_nat (dt_date last - dt_date first + 1))) by lia.
    apply total_counts.
    rewrite Forall_forall. intros x Hx.
    rewrite Forall_forall in Hall. destruct (Hall x Hx) as [t ->].
    exists t. split; [done|].
    apply list_elem_of_In in Hx. destruct (Hb t Hx) as [H1 H2].
    apply dt_date_mono in H1, H2. lia.
Qed.

(** The resampling of a table whose pickup column has a minimum and a
    maximum. *)
Lemma resample_eq (df : DataFrame) (v : list (option Z)) (first last : Z) :
  getitem df "pickup_datetime" = Ok (Datetime64 v) →
  series_min v = Some first → series_max v = Some last →
  resample_D_size df "pickup_datetime"
  = Ok (map (λ d, (midnight d, count_on_day d v))
            (seqZ (dt_date first) (dt_date last - dt_date first + 1))).
Proof.
  intros Hget Hmin Hmax. unfold resample_D_size. rewrite Hget. simpl.
  by rewrite Hmin, Hmax.
Qed.

(** C2, as the code has it.  For every table with at least one row whose
    pickup column has no missing value, the daily counts (of
    [aggregate_daily_trips], and of the same expression at line 173) are a
    dense series: every date d in [min pickup date, max pickup date] occurs
    exactly once among its labels, every count is >= 0, and the counts add
    up to the number of rows of the table. *)
Theorem daily_counts_dense (df : DataFrame) (v : list (option Z)) :
  wf df →
  getitem df "pickup_datetime" = Ok (Datetime64 v) →
  v ≠ [] →
  Forall is_Some v →
  ∃ lo hi series,
    min_date df = Ok (Some lo) ∧ max_date df = Ok (Some hi) ∧
    aggregate_daily_trips df = Ok series ∧
    daily_trips df = Ok series ∧
    (∀ d, lo ≤ d ≤ hi → count_occ Z.eq_dec (label_dates series) d = 1%nat) ∧
    Forall (λ e, 0 ≤ snd e) series ∧
    total (map snd series) = Z.of_nat (len df).
Proof.
  intros Hwf Hget Hne Hall.
  destruct (no_nat_first v Hne Hall) as [t0 Ht0].
  destruct (series_min_max v t0 Ht0) as (first & last & Hmin & Hmax & Hfirst & _ & Hb).
  assert (dt_date first ≤ dt_date last) as Hle
    by (apply dt_date_mono; destruct (Hb first Hfirst); lia).
  pose proof (resample_eq df v first last Hget Hmin Hmax) as Hagg.
  destruct (dense_counts v first last Hall Hb Hle) as (Honce & Hpos & Hsum).
  eexists (dt_date first), (dt_date last), _.
  split; [by unfold min_date; rewrite Hget; simpl; rewrite Hmin|].
  split; [by unfold max_date; rewrite Hget; simpl; rewrite Hmax|].
  split; [exact Hagg|]. split; [exact Hagg|].
  split; [exact Honce|]. split; [exact Hpos|].
  rewrite Hsum. pose proof (wf_getitem df _ _ Hwf Hget) as Hlen.
  simpl in Hlen. by rewrite Hlen.
Qed.

Lemma wf_boolean_index (df : DataFrame) (mask : list bool) :
  wf df → wf (boolean_index df mask).
Proof.
  unfold wf, len. simpl. intros H. rewrite Forall_map. simpl.
  eapply Forall_impl; [exact H|]. intros [n c] Hc. simpl in *.
  destruct c; simpl in *; by apply length_select_same.
Qed.

(** X22.  The table drawn at line 173 is a filtered one, which has no
    missing pickup instant: whenever it has a row, its daily counts are
    dense and add up to its number of rows. *)
Corollary filtered_daily_counts_dense (df out : DataFrame) (v : list (option Z))
    (start_date end_date : Z) :
  wf df →
  getitem df "pickup_datetime" = Ok (Datetime64 v) →
  filter_data df start_date end_date = Ok out →
  len out ≠ 0%nat →
  ∃ lo hi series,
    min_date out = Ok (Some lo) ∧ max_date out = Ok (Some hi) ∧
    daily_trips out = Ok series ∧
    (∀ d, lo ≤ d ≤ hi → count_occ Z.eq_dec (label_dates series) d = 1%nat) ∧
    Forall (λ e, 0 ≤ snd e) series ∧
    total (map snd series) = Z.of_nat (len out).
Proof.
  intros Hwf Hget Hf Hne.
  pose proof (filter_data_returns df out v _ _ Hget Hf) as Hv.
  rewrite (filter_data_eq df v _ _ Hget Hv) in Hf. injection Hf as <-.
  set (mask := map (in_interval start_date end_date) v) in *.
  pose proof (getitem_boolean_index df mask _ _ Hget) as Hout. simpl in Hout.
  pose proof (wf_getitem _ _ _ (wf_boolean_index df mask Hwf) Hout) as Hlen.
  simpl in Hlen.
  assert (Forall is_Some (select mask v)) as Hall.
  { eapply Forall_impl; [apply select_pred|].
    intros x Hx. apply in_interval_spec in Hx as (ts & -> & _). by eexists. }
  assert (select mask v ≠ []) as Hnil.
  { intros E. apply Hne. rewrite <- Hlen, E. done. }
  destruct (no_nat_first _ Hnil Hall) as [t0 Ht0].
  destruct (series_min_max _ t0 Ht0) as (first & last & Hmin & Hmax & Hfirst & _ & Hb).
  assert (dt_date first ≤ dt_date last) as Hle
    by (apply dt_date_mono; destruct (Hb first Hfirst); lia).
  destruct (dense_counts _ first last Hall Hb Hle) as (Honce & Hpos & Hsum).
  eexists (dt_date first), (dt_date last), _.
  split; [by unfold min_date; rewrite Hout; simpl; rewrite Hmin|].
  split; [by unfold max_date; rewrite Hout; simpl; rewrite Hmax|].
  split; [exact (resample_eq _ _ first last Hout Hmin Hmax)|].
  split; [exact Honce|]. split; [exact Hpos|].
  by rewrite Hsum, Hlen.
Qed.

Lemma daily_counts_dense_witness :
  wf scenario_df ∧
  ∃ lo hi series,
    min_date scenario_df = Ok (Some lo) ∧ max_date scenario_df = Ok (Some hi) ∧
    aggregate_daily_trips scenario_df = Ok series ∧
    daily_trips scenario_df = Ok series ∧
    (∀ d, lo ≤ d ≤ hi → count_occ Z.eq_dec (label_dates series) d = 1%nat) ∧
    Forall (λ e, 0 ≤ snd e) series ∧
    total (map snd series) = Z.of_nat (len scenario_df).
Proof.
  split; [exact wf_scenario_df|].
  apply (daily_counts_dense scenario_df
           [Some (midnight (ymd 2023 1 1)); Some (midnight (ymd 2023 1 2));
            Some (midnight (ymd 2023 1 5))]).
  - exact wf_scenario_df.
  - reflexivity.
  - discriminate.
  - repeat constructor; eexists; reflexivity.
Defined.

(** C2 as stated fails: on a table of two rows, one of them without a
    pickup instant, the daily counts add up to 1, not to the 2 rows of the
    table. *)
Lemma daily_counts_skip_missing :
  len nat_df = 2%nat ∧
  ∃ series, aggregate_daily_trips nat_df = Ok series ∧
            series = [(midnight (ymd 2023 1 1), 1)] ∧
            total (map snd series) = 1 ∧
            total (map snd series) ≠ Z.of_nat (len nat_df).
Proof.
  split; [reflexivity|]. eexists. split; [reflexivity|].
  split; [reflexivity|]. split; [reflexivity|]. discriminate.
Qed.

(** ** The metrics *)

Lemma with_screen_app (a b : list ui) (m : Mem) :
  with_screen (λ s, (s ++ b)%list) (with_screen (λ s, (s ++ a)%list) m)
  = with_screen (λ s, (s ++ (a ++ b))%list) m.
Proof. destruct m. unfold with_screen. simpl. by rewrite app_assoc. Qed.

Lemma float_column_empty (c : column) :
  float_dtype c = true → col_len c = 0%nat → c = Float64 [] ∨ c = Float32 [].
Proof.
  destruct c as [v|v|v|v]; simpl; try done; destruct v; simpl; try done; auto.
Qed.

(** C3.  On a table without rows whose distance and fare columns have a
    floating dtype, the metrics block raises nothing and shows a trip count
    of 0, NaN (the value pandas gives for the mean of nothing) for the
    average distance and the average fare, and a revenue of 0. *)
Theorem metrics_empty_table (filtered : DataFrame) (miles fare : column)
    (env : Env) (m : Mem) :
  wf filtered →
  len filtered = 0%nat →
  getitem filtered "trip_miles" = Ok miles → float_dtype miles = true →
  getitem filtered "base_passenger_fare" = Ok fare → float_dtype fare = true →
  PrimFloat.is_nan nan = true ∧
  metrics filtered env m =
    (Done (),
     with_screen (λ s, (s ++
       [st_columns 4;
        st_metric "Total Trips" [Fmt (PyInt 0) ","];
        st_metric "Avg Distance" [Fmt (PyFloat nan) ".2f"; Lit " miles"];
        st_metric "Avg Fare" [Lit "$"; Fmt (PyFloat nan) ".2f"];
        st_metric "Total Revenue" [Lit "$"; Fmt (PyFloat 0%float) ",.2f"]])%list) m).
Proof.
  intros Hwf Hlen Hm Hfm Hf Hff. split; [reflexivity|].
  pose proof (wf_getitem _ _ _ Hwf Hm) as Lm. rewrite Hlen in Lm.
  pose proof (wf_getitem _ _ _ Hwf Hf) as Lf. rewrite Hlen in Lf.
  unfold metrics, bind, show, lift. rewrite Hm, Hf, Hlen.
  destruct (float_column_empty _ Hfm Lm) as [-> | ->],
           (float_column_empty _ Hff Lf) as [-> | ->];
    destruct m; unfold with_screen; simpl; rewrite <- !app_assoc; reflexivity.
Qed.

Lemma metrics_empty_table_witness :
  ∃ filtered,
    filter_data scenario_df (ymd 2023 1 3) (ymd 2023 1 4) = Ok filtered ∧
    wf filtered ∧ len filtered = 0%nat ∧
    getitem filtered "trip_miles" = Ok (Float64 []) ∧
    getitem filtered "base_passenger_fare" = Ok (Float64 []) ∧
    PrimFloat.is_nan nan = true ∧
    metrics filtered empty_env empty_mem =
      (Done (),
       with_screen (λ s, (s ++
         [st_columns 4;
          st_metric "Total Trips" [Fmt (PyInt 0) ","];
          st_metric "Avg Distance" [Fmt (PyFloat nan) ".2f"; Lit " miles"];
          st_metric "Avg Fare" [Lit "$"; Fmt (PyFloat nan) ".2f"];
          st_metric "Total Revenue" [Lit "$"; Fmt (PyFloat 0%float) ",.2f"]])%list)
         empty_mem).
Proof.
  eexists. split; [reflexivity|].
  assert (wf (boolean_index scenario_df
                (map (in_interval (ymd 2023 1 3) (ymd 2023 1 4))
                   [Some (midnight (ymd 2023 1 1)); Some (midnight (ymd 2023 1 2));
                    Some (midnight (ymd 2023 1 5))]))) as Hwf
    by (unfold wf; repeat constructor).
  split; [exact Hwf|]. split; [reflexivity|].
  split; [reflexivity|]. split; [reflexivity|].
  apply (metrics_empty_table _ (Float64 []) (Float64 []) empty_env empty_mem);
    [exact Hwf|reflexivity..].
Defined.

(** C4.  The end-to-end scenario: of the three trips (2023-01-01, 5.0 mi,
    $10), (2023-01-02, 3.0 mi, $8), (2023-01-05, 1.0 mi, $4), the filter on
    [2023-01-01, 2023-01-02] keeps 2; the metrics of these show an average
    distance of 4.0, an average fare of 9.0 and a revenue of 18.0; and the
    daily counts of the whole table (which the filter on its full span
    returns unchanged) are 1, 1, 0, 0, 1 on 2023-01-01 ... 2023-01-05. *)
Theorem scenario_end_to_end :
  ∃ filtered,
    filter_data scenario_df (ymd 2023 1 1) (ymd 2023 1 2) = Ok filtered ∧
    filtered_df scenario_df [ymd 2023 1 1; ymd 2023 1 2] = Ok filtered ∧
    len filtered = 2%nat ∧
    (∀ env m,
       metrics filtered env m =
         (Done (),
          with_screen (λ s, (s ++
            [st_columns 4;
             st_metric "Total Trips" [Fmt (PyInt 2) ","];
             st_metric "Avg Distance" [Fmt (PyFloat 4%float) ".2f"; Lit " miles"];
             st_metric "Avg Fare" [Lit "$"; Fmt (PyFloat 9%float) ".2f"];
             st_metric "Total Revenue" [Lit "$"; Fmt (PyFloat 18%float) ",.2f"]])%list) m)) ∧
    filter_data scenario_df (ymd 2023 1 1) (ymd 2023 1 5) = Ok scenario_df ∧
    aggregate_daily_trips scenario_df =
      Ok [(midnight (ymd 2023 1 1), 1); (midnight (ymd 2023 1 2), 1);
          (midnight (ymd 2023 1 3), 0); (midnight (ymd 2023 1 4), 0);
          (midnight (ymd 2023 1 5), 1)] ∧
    daily_trips scenario_df = aggregate_daily_trips scenario_df.
Proof.
  eexists. split; [reflexivity|]. split; [reflexivity|]. split; [reflexivity|].
  split; [|split; [reflexivity|split; reflexivity]].
  intros env m. destruct m. unfold metrics, bind, show, lift, with_screen. simpl.
  rewrite <- !app_assoc. reflexivity.
Qed.

(** ** The password callback *)

(** C7, as the code has it.  When the callback runs on a typed credential
    and a configured secret, it ends normally; if the two are equal the
    credential is removed from the session state and [password_correct]
    is [True]; if they differ [password_correct] is [False] and the
    credential is still in the session state. *)
Theorem password_entered_credential (env : Env) (m : Mem) (typed secret : sval) :
  session_state m !! "password" = Some typed →
  secrets env !! "password" = Some secret →
  ∃ m', password_entered env m = (Done (), m') ∧
    (typed = secret →
       session_state m' !! "password" = None ∧
       session_state m' !! "password_correct" = Some (SBool true)) ∧
    (typed ≠ secret →
       session_state m' !! "password" = Some typed ∧
       session_state m' !! "password_correct" = Some (SBool false)).
Proof.
  intros Ht Hs.
  unfold password_entered, bind, get_session, session_get, secrets_get.
  rewrite Ht. rewrite bool_decide_eq_true_2 by eauto. rewrite Ht, Hs.
  destruct (bool_decide (typed = secret)) eqn:E.
  - apply bool_decide_eq_true_1 in E.
    unfold set_session, del_session. simpl.
    rewrite lookup_insert_ne, Ht by done.
    eexists. split; [reflexivity|]. split; [|done].
    intros _. simpl. rewrite lookup_delete_eq.
    by rewrite lookup_delete_ne, lookup_insert_eq.
  - apply bool_decide_eq_false_1 in E.
    unfold set_session. eexists. split; [reflexivity|]. split; [done|].
    intros _. simpl. by rewrite lookup_insert_ne, lookup_insert_eq.
Qed.

Lemma password_entered_credential_witness :
  session_state (typed_mem "s3cret") !! "password" = Some (SStr "s3cret") ∧
  secrets secret_env !! "password" = Some (SStr "s3cret") ∧
  ∃ m', password_entered secret_env (typed_mem "s3cret") = (Done (), m') ∧
    (SStr "s3cret" = SStr "s3cret" →
       session_state m' !! "password" = None ∧
       session_state m' !! "password_correct" = Some (SBool true)) ∧
    (SStr "s3cret" ≠ SStr "s3cret" →
       session_state m' !! "password" = Some (SStr "s3cret") ∧
       session_state m' !! "password_correct" = Some (SBool false)).
Proof.
  split; [reflexivity|]. split; [reflexivity|].
  apply (password_entered_credential secret_env (typed_mem "s3cret")
           (SStr "s3cret") (SStr "s3cret")); reflexivity.
Defined.

(** C7 as stated fails: after the comparison of a wrong credential the
    credential is still in the session state. *)
Lemma failed_comparison_keeps_credential :
  ∃ m', submit_password "guess" secret_env empty_mem = (Done (), m') ∧
        password_entered secret_env (typed_mem "guess") = (Done (), m') ∧
        session_state m' !! "password_correct" = Some (SBool false) ∧
        session_state m' !! "password" = Some (SStr "guess").
Proof.
  eexists. split; [reflexivity|]. split; [vm_compute; reflexivity|].
  split; vm_compute; reflexivity.
Qed.

(** ** Validation of the columns *)

Lemma assoc_set_names (name : string) (c : column) cols :
  name ∈ map fst cols → map fst (assoc_set name c cols) = map fst cols.
Proof.
  induction cols as [|[n c0] cols IH]; simpl; [by intros ?%elem_of_nil|].
  destruct (String.eqb_spec name n) as [->|Hne]; [done|].
  intros [?|Hin]%elem_of_cons; [done|]. simpl. by rewrite IH.
Qed.

Lemma setitem_names (df : DataFrame) (name : string) (c : column) :
  has_column df name = true →
  column_names (setitem df name c) = column_names df.
Proof.
  unfold has_column, column_names. intros H%bool_decide_eq_true_1.
  simpl. by apply assoc_set_names.
Qed.

(** The conversion of the datetime columns changes neither the names of
    the columns nor the index. *)
Lemma convert_datetime_cols_names (cols : list string) (df df' : DataFrame) :
  convert_datetime_cols cols df = Ok df' →
  column_names df' = column_names df ∧ index df' = index df.
Proof.
  revert df; induction cols as [|col cols IH]; intros df; simpl.
  - by intros [= ->].
  - destruct (has_column df col) eqn:Hc; [|by apply IH].
    destruct (getitem df col) as [c| |]; simpl; try done.
    destruct (to_datetime c) as [c'| |]; simpl; try done.
    intros H. destruct (IH _ H) as [-> ->]. split; [|done].
    by apply setitem_names.
Qed.

Lemma missing_cols_names (df df' : DataFrame) :
  column_names df' = column_names df → missing_cols df' = missing_cols df.
Proof. intros E. unfold missing_cols, has_column. by rewrite E. Qed.

Lemma missing_cols_spec (df : DataFrame) (col : string) :
  col ∈ missing_cols df ↔ col ∈ required_cols ∧ has_column df col = false.
Proof.
  unfold missing_cols. rewrite !list_elem_of_In, filter_In, negb_true_iff. done.
Qed.

(** C8, as the code has it.  The columns checked are [pickup_datetime],
    [dropoff_datetime], [trip_miles] and [base_passenger_fare].  When the
    conversion of the datetime columns has gone through and one of these
    four is absent, the run of the dashboard is stopped right after it has
    reported the absent ones among the four and listed the columns of the
    table; nothing else is shown. *)
Theorem validation_halts (df df' : DataFrame) (selection : option (list Z))
    (env : Env) (m : Mem) (col : string) :
  convert_datetime_cols datetime_cols df = Ok df' →
  col ∈ required_cols →
  has_column df col = false →
  required_cols
    = ["pickup_datetime"; "dropoff_datetime"; "trip_miles"; "base_passenger_fare"] ∧
  col ∈ missing_cols df ∧
  (∀ c, c ∈ missing_cols df ↔ c ∈ required_cols ∧ has_column df c = false) ∧
  dashboard df selection env m =
    (Stopped,
     with_screen (λ s, (s ++
       [st_success "Data loaded successfully!";
        st_write "Data shape:" (Some (PyShape (shape df)));
        st_error [Lit "Missing required columns: "; Fmt (PyStrList (missing_cols df)) ""];
        st_write "Available columns:" (Some (PyStrList (column_names df)))])%list)
       (with_session (insert "data_loaded" (SBool true)) m)).
Proof.
  intros Hconv Hreq Habs.
  assert (col ∈ missing_cols df) as Hmiss by (by apply missing_cols_spec).
  split; [done|]. split; [done|]. split; [apply missing_cols_spec|].
  destruct (convert_datetime_cols_names _ _ _ Hconv) as [Hnames _].
  unfold dashboard, bind, set_session, show, lift. rewrite Hconv.
  unfold validate. rewrite (missing_cols_names _ _ Hnames), Hnames.
  destruct (missing_cols df) as [|c0 rest] eqn:E; [by apply elem_of_nil in Hmiss|].
  unfold bind, show, st_stop. destruct m. unfold with_screen, with_session. simpl.
  rewrite <- !app_assoc. reflexivity.
Qed.

Lemma validation_halts_witness :
  convert_datetime_cols datetime_cols no_fare_df = Ok no_fare_df ∧
  "base_passenger_fare" ∈ required_cols ∧
  has_column no_fare_df "base_passenger_fare" = false ∧
  required_cols
    = ["pickup_datetime"; "dropoff_datetime"; "trip_miles"; "base_passenger_fare"] ∧
  "base_passenger_fare" ∈ missing_cols no_fare_df ∧
  (∀ c, c ∈ missing_cols no_fare_df ↔
        c ∈ required_cols ∧ has_column no_fare_df c = false) ∧
  dashboard no_fare_df None empty_env empty_mem =
    (Stopped,
     with_screen (λ s, (s ++
       [st_success "Data loaded successfully!";
        st_write "Data shape:" (Some (PyShape (shape no_fare_df)));
        st_error [Lit "Missing required columns: ";
                  Fmt (PyStrList (missing_cols no_fare_df)) ""];
        st_write "Available columns:" (Some (PyStrList (column_names no_fare_df)))])%list)
       (with_session (insert "data_loaded" (SBool true)) empty_mem)).
Proof.
  assert ("base_passenger_fare" ∈ required_cols) as Hreq
    by (unfold required_cols; set_solver).
  split; [reflexivity|]. split; [exact Hreq|]. split; [reflexivity|].
  apply (validation_halts no_fare_df no_fare_df None empty_env empty_mem
           "base_passenger_fare"); [reflexivity|exact Hreq|reflexivity].
Defined.

(** C8 as stated fails for [dispatching_base_num]: a table that lacks only
    that column passes the validation, and the run goes on to the end
    without an error message. *)
Lemma missing_dispatch_column_not_reported :
  has_column no_dispatch_df "dispatching_base_num" = false ∧
  missing_cols no_dispatch_df = [] ∧
  ∃ m', dashboard no_dispatch_df None empty_env empty_mem = (Done (), m') ∧
        Forall (λ e, ∀ msg, e ≠ st_error msg) (screen m') ∧
        last (screen m')
          = Some (st_line (map midnight [ymd 2023 1 1; ymd 2023 1 2; ymd 2023 1 3;
                                         ymd 2023 1 4; ymd 2023 1 5])
                          [1; 1; 0; 0; 1]).
Proof.
  split; [reflexivity|]. split; [reflexivity|].
  eexists. split; [vm_compute; reflexivity|].
  split; [|reflexivity].
  simpl. repeat constructor; discriminate.
Qed.

(** ** The cached loaders *)

Section cache_data_facts.
Context {V : Type} (ttl : option Z).
Context (get : Mem → gmap string (cached V)).
Context (update : (gmap string (cached V) → gmap string (cached V)) → Mem → Mem).
Context (f : string → Script V).
Hypothesis get_update : ∀ g m, get (update g m) = g (get m).
Hypothesis reads_update : ∀ g m, reads (update g m) = reads m.
Hypothesis get_screen : ∀ g m, get (with_screen g m) = get m.

(** A hit returns the stored value and leaves [reads] and the store as
    they are. *)
Lemma cache_data_hit (key : string) (env : Env) (m : Mem) (e : cached V) :
  cache_hit ttl (clock env) (get m) key = Some e →
  ∃ m', cache_data ttl get update f key env m = (Done (value e), m') ∧
        reads m' = reads m ∧ get m' = get m.
Proof.
  intros H. unfold cache_data. rewrite H. eexists. split; [done|].
  split; [by destruct m|]. apply get_screen.
Qed.

(** After a call that returned, the store has an entry for the key with
    the value returned; on a miss it was stored at the time of the call
    and the function ran once. *)
Lemma cache_data_stored (key : string) (env : Env) (m m1 : Mem) (v : V) :
  cache_data ttl get update f key env m = (Done v, m1) →
  ∃ e, get m1 !! key = Some e ∧ value e = v ∧
       (cache_hit ttl (clock env) (get m) key = None →
          stored_at e = clock env ∧
          ∃ m', f key env m = (Done v, m') ∧ reads m1 = reads m') ∧
       (cache_hit ttl (clock env) (get m) key ≠ None → reads m1 = reads m).
Proof.
  unfold cache_data. destruct (cache_hit ttl (clock env) (get m) key) as [e|] eqn:Hhit.
  - intros [= <- <-]. exists e. split.
    + rewrite get_screen. unfold cache_hit in Hhit.
      destruct (get m !! key) as [e'|]; [|done].
      destruct ttl; [destruct (_ <? _)|]; congruence.
    + split; [done|]. split; [done|]. intros _. by destruct m.
  - destruct (f key env m) as [[v'| | |] m'] eqn:Hf; try done.
    intros [= <- <-]. eexists. split; [by rewrite get_update, lookup_insert_eq|].
    split; [done|]. split; [|done]. intros _. split; [done|].
    eexists. split; [done|]. apply reads_update.
Qed.

Lemma cache_hit_live (store : gmap string (cached V)) (key : string)
    (e : cached V) (now : Z) :
  store !! key = Some e →
  match ttl with Some d => now < stored_at e + d | None => True end →
  cache_hit ttl now store key = Some e.
Proof.
  intros H Hlive. unfold cache_hit. rewrite H. destruct ttl as [d|]; [|done].
  by rewrite (proj2 (Z.ltb_lt _ _) Hlive).
Qed.
End cache_data_facts.

Lemma read_parquet_mem (path : string) cols (env : Env) (m m' : Mem) r :
  read_parquet path cols env m = (r, m') → m' = with_reads (cons path) m.
Proof.
  unfold read_parquet. destruct (files env !! path) as [[df|]|]; [|congruence..].
  destruct cols as [names|]; [|congruence].
  destruct (project (columns df) names); congruence.
Qed.

(** [load_data] reads the file once when it runs. *)
Lemma load_data_wrapped_mem (path : string) (env : Env) (m m' : Mem) r :
  load_data_wrapped path env m = (r, m') → m' = with_reads (cons path) m.
Proof.
  unfold load_data_wrapped, bind.
  destruct (read_parquet path (Some columns_to_use) env m) as [o m0] eqn:Hr.
  apply read_parquet_mem in Hr as ->.
  destruct o as [df| | |]; try congruence.
  unfold lift, ret.
  destruct (c ← getitem df "trip_miles"; astype_float32 c) as [miles| |];
    try congruence.
  destruct (c ← getitem (setitem df "trip_miles" miles) "base_passenger_fare";
            astype_float32 c); congruence.
Qed.

(** [load_parquet_data] always returns, and reads the file once when it
    runs. *)
Lemma load_parquet_data_wrapped_total (path : string) (env : Env) (m : Mem) :
  ∃ r m', load_parquet_data_wrapped path env m = (Done r, m') ∧
          reads m' = path :: reads m.
Proof.
  unfold load_parquet_data_wrapped, try_except, bind.
  destruct (read_parquet path None env m) as [o m0] eqn:Hr.
  pose proof (read_parquet_mem _ _ _ _ _ _ Hr) as ->.
  unfold read_parquet in Hr.
  destruct (files env !! path) as [[df|]|]; injection Hr as <-;
    eexists _, _; (split; [reflexivity|]); by destruct m.
Qed.

(** C5.  When a call of [load_data] on a path returns a table, the cache
    holds it for that path; a second call on the same path made before the
    entry is 3600 seconds old returns the same table and hands nothing to
    [pd.read_parquet], whatever has become of the file.  If the first call
    found no live entry, it read the file exactly once and the entry dates
    from that call, so the two calls together read once.  The same holds
    for [load_parquet_data], which always returns and whose entries do not
    expire. *)
Theorem load_twice_reads_once (path : string) (env1 env2 : Env) (m m1 : Mem)
    (df : DataFrame) :
  load_data path env1 m = (Done df, m1) →
  (∃ e, load_data_cache m1 !! path = Some e ∧ value e = df ∧
        (cache_hit (Some 3600) (clock env1) (load_data_cache m) path = None →
           stored_at e = clock env1 ∧ reads m1 = path :: reads m) ∧
        (cache_hit (Some 3600) (clock env1) (load_data_cache m) path ≠ None →
           reads m1 = reads m) ∧
        (clock env2 < stored_at e + 3600 →
           ∃ m2, load_data path env2 m1 = (Done df, m2) ∧ reads m2 = reads m1)) ∧
  (∃ r m1' e,
     load_parquet_data path env1 m = (Done r, m1') ∧
     load_parquet_data_cache m1' !! path = Some e ∧ value e = r ∧
     (load_parquet_data_cache m !! path = None → reads m1' = path :: reads m) ∧
     (load_parquet_data_cache m !! path ≠ None → reads m1' = reads m) ∧
     ∃ m2, load_parquet_data path env2 m1' = (Done r, m2) ∧ reads m2 = reads m1').
Proof.
  intros Hload. split.
  - unfold load_data in *.
    destruct (cache_data_stored (Some 3600) load_data_cache with_load_data_cache
                load_data_wrapped (λ g m, eq_refl) (λ g m, eq_refl) (λ g m, eq_refl)
                path env1 m m1 df Hload) as (e & He & Hv & Hcold & Hwarm).
    exists e. split; [done|]. split; [done|]. split; [|split; [done|]].
    + intros Hmiss. destruct (Hcold Hmiss) as (Hat & m' & Hf & Hr).
      split; [done|]. apply load_data_wrapped_mem in Hf as ->.
      rewrite Hr. by destruct m.
    + intros Hlive.
      destruct (cache_data_hit (Some 3600) load_data_cache with_load_data_cache
                  load_data_wrapped (λ g m, eq_refl) path env2 m1 e) as (m2 & H2 & Hr2 & _).
      { by apply cache_hit_live. }
      exists m2. by rewrite Hv in H2.
  - unfold load_parquet_data.
    assert (∃ r m1', cache_data None load_parquet_data_cache
                       with_load_parquet_data_cache load_parquet_data_wrapped
                       path env1 m = (Done r, m1')) as (r & m1' & H1).
    { unfold cache_data.
      destruct (cache_hit None (clock env1) (load_parquet_data_cache m) path);
        [by eexists _, _|].
      destruct (load_parquet_data_wrapped_total path env1 m) as (r & m' & -> & _).
      by eexists _, _. }
    destruct (cache_data_stored None load_parquet_data_cache
                with_load_parquet_data_cache load_parquet_data_wrapped
                (λ g m, eq_refl) (λ g m, eq_refl) (λ g m, eq_refl)
                path env1 m m1' r H1) as (e & He & Hv & Hcold & Hwarm).
    exists r, m1', e. split; [done|]. split; [done|]. split; [done|].
    assert (cache_hit None (clock env1) (load_parquet_data_cache m) path
            = load_parquet_data_cache m !! path) as Hhit.
    { unfold cache_hit. by destruct (load_parquet_data_cache m !! path). }
    rewrite Hhit in Hcold, Hwarm.
    split; [|split; [done|]].
    + intros Hmiss. destruct (Hcold Hmiss) as (_ & m' & Hf & Hr).
      destruct (load_parquet_data_wrapped_total path env1 m) as (r' & m'' & Hf' & Hr').
      rewrite Hf in Hf'. injection Hf' as _ <-. by rewrite Hr.
    + destruct (cache_data_hit None load_parquet_data_cache
                  with_load_parquet_data_cache load_parquet_data_wrapped
                  (λ g m, eq_refl) path env2 m1' e) as (m2 & H2 & Hr2 & _).
      { by apply cache_hit_live. }
      exists m2. by rewrite Hv in H2.
Qed.

Lemma load_twice_reads_once_witness :
  ∃ df m1,
    load_data data_file file_env empty_mem = (Done df, m1) ∧
    (∃ e, load_data_cache m1 !! data_file = Some e ∧ value e = df ∧
          (cache_hit (Some 3600) (clock file_env) (load_data_cache empty_mem) data_file
             = None →
             stored_at e = clock file_env ∧ reads m1 = data_file :: reads empty_mem) ∧
          (cache_hit (Some 3600) (clock file_env) (load_data_cache empty_mem) data_file
             ≠ None →
             reads m1 = reads empty_mem) ∧
          (clock later_env < stored_at e + 3600 →
             ∃ m2, load_data data_file later_env m1 = (Done df, m2) ∧
                   reads m2 = reads m1)) ∧
    (∃ r m1' e,
       load_parquet_data data_file file_env empty_mem = (Done r, m1') ∧
       load_parquet_data_cache m1' !! data_file = Some e ∧ value e = r ∧
       (load_parquet_data_cache empty_mem !! data_file = None →
          reads m1' = data_file :: reads empty_mem) ∧
       (load_parquet_data_cache empty_mem !! data_file ≠ None →
          reads m1' = reads empty_mem) ∧
       ∃ m2, load_parquet_data data_file later_env m1' = (Done r, m2) ∧
             reads m2 = reads m1').
Proof.
  eexists _, _. split; [vm_compute; reflexivity|].
  apply (load_twice_reads_once data_file file_env later_env empty_mem).
  vm_compute. reflexivity.
Defined.

(** ** What the loaders return *)

Lemma project_columns_to_use cols out :
  project cols columns_to_use = Some out →
  ∃ c1 c2 c3 c4 c5,
    assoc "pickup_datetime" cols = Some c1 ∧
    assoc "dropoff_datetime" cols = Some c2 ∧
    assoc "trip_miles" cols = Some c3 ∧
    assoc "base_passenger_fare" cols = Some c4 ∧
    assoc "dispatching_base_num" cols = Some c5 ∧
    out = [("pickup_datetime", c1); ("dropoff_datetime", c2); ("trip_miles", c3);
           ("base_passenger_fare", c4); ("dispatching_base_num", c5)].
Proof.
  unfold columns_to_use. simpl.
  destruct (assoc "pickup_datetime" cols) as [c1|]; [|done].
  destruct (assoc "dropoff_datetime" cols) as [c2|]; [|done].
  destruct (assoc "trip_miles" cols) as [c3|]; [|done].
  destruct (assoc "base_passenger_fare" cols) as [c4|]; [|done].
  destruct (assoc "dispatching_base_num" cols) as [c5|]; [|done].
  intros [= <-]. by exists c1, c2, c3, c4, c5.
Qed.

Lemma astype_float32_dtype (c c' : column) :
  astype_float32 c = Ok c' → ∃ v, c' = Float32 v.
Proof. destruct c; simpl; intros [= <-]; eauto. Qed.

(** On a miss the decorated function returns what the function under it
    returns. *)
Lemma cache_data_miss {V} ttl get update (f : string → Script V) key env m v m1 :
  cache_hit ttl (clock env) (get m) key = None →
  cache_data ttl get update f key env m = (Done v, m1) →
  ∃ m', f key env m = (Done v, m').
Proof.
  unfold cache_data. intros ->.
  destruct (f key env m) as [[v'| | |] m']; try done.
  intros [= <- _]. by eexists.
Qed.

(** C6, as the code has it.  [load_data], when it runs and returns, gives
    a table with exactly the five columns [pickup_datetime],
    [dropoff_datetime], [trip_miles], [base_passenger_fare],
    [dispatching_base_num], with [trip_miles] and [base_passenger_fare] in
    float32; it does return on a file that has the five columns with the
    two numeric ones in float64.  The table the dashboard works on does not
    come from it: it is the one [load_parquet_data] returns, which is the
    whole table of the file, every column with its dtype, and likewise for
    an uploaded file. *)
Theorem loaders_columns (path : string) (env : Env) (m : Mem) (t : DataFrame) :
  files env !! path = Some (Table t) →
  (∀ df m',
     cache_hit (Some 3600) (clock env) (load_data_cache m) path = None →
     load_data path env m = (Done df, m') →
     index df = index t ∧ column_names df = columns_to_use ∧
     ∃ miles fare,
       getitem df "trip_miles" = Ok (Float32 miles) ∧
       getitem df "base_passenger_fare" = Ok (Float32 fare)) ∧
  (∀ cols miles fare,
     project (columns t) columns_to_use = Some cols →
     getitem t "trip_miles" = Ok (Float64 miles) →
     getitem t "base_passenger_fare" = Ok (Float64 fare) →
     ∃ df m',
       load_data_wrapped path env m = (Done df, m') ∧
       getitem df "trip_miles" = Ok (Float32 (map round32 miles)) ∧
       getitem df "base_passenger_fare" = Ok (Float32 (map round32 fare))) ∧
  (load_parquet_data_cache m !! path = None →
     ∃ m', load_parquet_data path env m = (Done (Some t), m')) ∧
  (path = data_file → load_parquet_data_cache m !! path = None →
     ∃ m', acquire_df env m = (Done (Some t), m')) ∧
  (∀ env' u, files env' !! data_file = None → uploaded_file env' = Some (Table u) →
     ∃ m', acquire_df env' m = (Done (Some u), m')).
Proof.
  intros Hfile. split; [|split; [|split; [|split]]].
  - intros df m' Hmiss Hload. unfold load_data in Hload.
    destruct (cache_data_miss _ _ _ _ _ _ _ _ _ Hmiss Hload) as [m0 Hw].
    revert Hw. unfold load_data_wrapped, bind, read_parquet. rewrite Hfile.
    destruct (project (columns t) columns_to_use) as [out|] eqn:Hp; [|done].
    destruct (project_columns_to_use _ _ Hp) as (c1 & c2 & c3 & c4 & c5 & _ & _ & _ & _ & _ & ->).
    unfold lift, ret, getitem. simpl.
    destruct (astype_float32 c3) as [miles| |] eqn:E3; simpl; try done.
    destruct (astype_float32 c4) as [fare| |] eqn:E4; simpl; try done.
    intros [= <- _].
    apply astype_float32_dtype in E3 as [vm ->].
    apply astype_float32_dtype in E4 as [vf ->].
    split; [done|]. split; [done|]. by exists vm, vf.
  - intros cols miles fare Hp Hm Hf.
    destruct (project_columns_to_use _ _ Hp) as (c1 & c2 & c3 & c4 & c5 & _ & _ & H3 & H4 & _ & ->).
    unfold getitem in Hm, Hf. rewrite H3 in Hm. rewrite H4 in Hf.
    injection Hm as ->. injection Hf as ->.
    unfold load_data_wrapped, bind, read_parquet. rewrite Hfile, Hp.
    eexists _, _. split; [reflexivity|]. split; reflexivity.
  - intros Hcold. unfold load_parquet_data, cache_data, cache_hit. rewrite Hcold.
    unfold load_parquet_data_wrapped, try_except, bind, read_parquet. rewrite Hfile.
    by eexists.
  - intros -> Hcold. unfold acquire_df, bind, ask. rewrite Hfile.
    rewrite bool_decide_eq_true_2 by eauto. simpl.
    unfold load_parquet_data, cache_data, cache_hit. rewrite Hcold.
    unfold load_parquet_data_wrapped, try_except, bind, read_parquet. rewrite Hfile.
    by eexists.
  - intros env' u Hnone Hup. unfold acquire_df, bind, ask. rewrite Hnone.
    rewrite bool_decide_eq_false_2 by (by intros [??]). simpl.
    unfold show, bind. rewrite Hup. by eexists.
Qed.

Lemma loaders_columns_witness :
  files wide_env !! data_file = Some (Table wide_df) ∧
  (∀ df m',
     cache_hit (Some 3600) (clock wide_env) (load_data_cache empty_mem) data_file = None →
     load_data data_file wide_env empty_mem = (Done df, m') →
     index df = index wide_df ∧ column_names df = columns_to_use ∧
     ∃ miles fare,
       getitem df "trip_miles" = Ok (Float32 miles) ∧
       getitem df "base_passenger_fare" = Ok (Float32 fare)) ∧
  (∀ cols miles fare,
     project (columns wide_df) columns_to_use = Some cols →
     getitem wide_df "trip_miles" = Ok (Float64 miles) →
     getitem wide_df "base_passenger_fare" = Ok (Float64 fare) →
     ∃ df m',
       load_data_wrapped data_file wide_env empty_mem = (Done df, m') ∧
       getitem df "trip_miles" = Ok (Float32 (map round32 miles)) ∧
       getitem df "base_passenger_fare" = Ok (Float32 (map round32 fare))) ∧
  (load_parquet_data_cache empty_mem !! data_file = None →
     ∃ m', load_parquet_data data_file wide_env empty_mem = (Done (Some wide_df), m')) ∧
  (data_file = data_file → load_parquet_data_cache empty_mem !! data_file = None →
     ∃ m', acquire_df wide_env empty_mem = (Done (Some wide_df), m')) ∧
  (∀ env' u, files env' !! data_file = None → uploaded_file env' = Some (Table u) →
     ∃ m', acquire_df env' empty_mem = (Done (Some u), m')).
Proof.
  split; [vm_compute; reflexivity|].
  apply (loaders_columns data_file wide_env empty_mem wide_df).
  vm_compute. reflexivity.
Defined.

(** C6 as stated fails: from a file with six columns, the numeric ones in
    float64, the loader of the dashboard returns the six columns with the
    numeric ones still in float64, and this is the table the page reports
    the shape of and draws the histogram from. *)
Lemma dashboard_table_not_pruned :
  column_names wide_df
    = ["pickup_datetime"; "dropoff_datetime"; "trip_miles"; "base_passenger_fare";
       "dispatching_base_num"; "request_datetime"] ∧
  getitem wide_df "trip_miles" = Ok (Float64 [5%float; 3%float; 1%float]) ∧
  getitem wide_df "base_passenger_fare" = Ok (Float64 [10%float; 8%float; 4%float]) ∧
  (∃ m', acquire_df wide_env authorized_mem = (Done (Some wide_df), m')) ∧
  ∃ m', app None wide_env authorized_mem = (Done (), m') ∧
        st_write "Data shape:" (Some (PyShape (3%nat, 6%nat))) ∈ screen m' ∧
        st_histogram (Float64 [5%float; 3%float; 1%float]) 50 ∈ screen m' ∧
        load_data_cache m' = ∅.
Proof.
  split; [reflexivity|]. split; [reflexivity|]. split; [reflexivity|].
  split; [eexists; vm_compute; reflexivity|].
  eexists. split; [vm_compute; reflexivity|].
  split; [|split; [|reflexivity]]; simpl; set_solver.
Qed.

(** * Further properties of the filter *)

Lemma select_filter {A} (p : A → bool) (l : list A) :
  select (map p l) l = List.filter p l.
Proof.
  induction l as [|x l IH]; simpl; [done|]. destruct (p x); by rewrite IH.
Qed.

Lemma select_sublist {A} (mask : list bool) (l : list A) :
  sublist (select mask l) l.
Proof.
  revert l; induction mask as [|b mask IH]; intros [|x l]; simpl;
    try apply sublist_nil_l.
  destruct b; [by apply sublist_skip|by apply sublist_cons].
Qed.

(** Selecting with a second mask, computed on what the first one kept, is
    selecting with the conjunction of the two. *)
Lemma select_select {A B} (p q : A → bool) (v : list A) (l : list B) :
  select (map p (select (map q v) v)) (select (map q v) l)
  = select (map (λ x, q x && p x) v) l.
Proof.
  revert l; induction v as [|x v IH]; intros [|y l]; simpl; try done.
  - by destruct (q x); simpl; destruct (select (map q v) v).
  - destruct (q x); simpl; [destruct (p x)|]; by rewrite IH.
Qed.

Lemma column_names_boolean_index (df : DataFrame) (mask : list bool) :
  column_names (boolean_index df mask) = column_names df.
Proof. unfold column_names, boolean_index. simpl. by rewrite map_map. Qed.

Lemma in_interval_inter (s1 e1 s2 e2 : Z) (x : option Z) :
  in_interval (Z.max s1 s2) (Z.min e1 e2) x
  = in_interval s1 e1 x && in_interval s2 e2 x.
Proof.
  apply eq_true_iff_eq. rewrite andb_true_iff, !in_interval_spec. split.
  - intros (ts & -> & ?). split; exists ts; (split; [done|lia]).
  - intros [(ts & -> & ?) (ts' & [= <-] & ?)]. exists ts. split; [done|lia].
Qed.

(** X1.  On a table with at least one pickup instant the filter keeps
    exactly the rows whose pickup date lies in the interval: the pickup
    column of the result is the input column restricted to these rows, in
    order, and the result has as many rows as the input has such rows. *)
Theorem filter_keeps_exactly (df : DataFrame) (v : list (option Z))
    (t0 start_date end_date : Z) :
  wf df →
  getitem df "pickup_datetime" = Ok (Datetime64 v) →
  In (Some t0) v →
  ∃ out,
    filter_data df start_date end_date = Ok out ∧
    getitem out "pickup_datetime"
      = Ok (Datetime64 (List.filter (in_interval start_date end_date) v)) ∧
    len out = length (List.filter (in_interval start_date end_date) v) ∧
    ∀ ts, In (Some ts) v → start_date ≤ dt_date ts ≤ end_date →
          In (Some ts) (List.filter (in_interval start_date end_date) v).
Proof.
  intros Hwf Hget Hin.
  set (mask := map (in_interval start_date end_date) v).
  exists (boolean_index df mask).
  split; [exact (filter_data_eq df v _ _ Hget (all_nat_In v t0 Hin))|].
  split.
  { rewrite (getitem_boolean_index df mask _ _ Hget). simpl.
    unfold mask. by rewrite select_filter. }
  split.
  { unfold len; simpl. rewrite <- select_filter. apply length_select_same.
    pose proof (wf_getitem df _ _ Hwf Hget) as L. simpl in L. by rewrite L. }
  intros ts Hts Hd. apply filter_In. split; [done|].
  apply in_interval_spec. by exists ts.
Qed.

Lemma filter_keeps_exactly_witness :
  wf scenario_df ∧
  In (Some (midnight (ymd 2023 1 1)))
     [Some (midnight (ymd 2023 1 1)); Some (midnight (ymd 2023 1 2));
      Some (midnight (ymd 2023 1 5))] ∧
  ∃ out,
    filter_data scenario_df (ymd 2023 1 2) (ymd 2023 1 5) = Ok out ∧
    getitem out "pickup_datetime"
      = Ok (Datetime64 (List.filter (in_interval (ymd 2023 1 2) (ymd 2023 1 5))
              [Some (midnight (ymd 2023 1 1)); Some (midnight (ymd 2023 1 2));
               Some (midnight (ymd 2023 1 5))])) ∧
    len out = length (List.filter (in_interval (ymd 2023 1 2) (ymd 2023 1 5))
              [Some (midnight (ymd 2023 1 1)); Some (midnight (ymd 2023 1 2));
               Some (midnight (ymd 2023 1 5))]) ∧
    ∀ ts, In (Some ts) [Some (midnight (ymd 2023 1 1)); Some (midnight (ymd 2023 1 2));
                        Some (midnight (ymd 2023 1 5))] →
          ymd 2023 1 2 ≤ dt_date ts ≤ ymd 2023 1 5 →
          In (Some ts) (List.filter (in_interval (ymd 2023 1 2) (ymd 2023 1 5))
              [Some (midnight (ymd 2023 1 1)); Some (midnight (ymd 2023 1 2));
               Some (midnight (ymd 2023 1 5))]).
Proof.
  assert (In (Some (midnight (ymd 2023 1 1)))
            [Some (midnight (ymd 2023 1 1)); Some (midnight (ymd 2023 1 2));
             Some (midnight (ymd 2023 1 5))]) as Hin by (by left).
  split; [exact wf_scenario_df|]. split; [exact Hin|].
  apply (filter_keeps_exactly scenario_df
           [Some (midnight (ymd 2023 1 1)); Some (midnight (ymd 2023 1 2));
            Some (midnight (ymd 2023 1 5))] (midnight (ymd 2023 1 1))
           (ymd 2023 1 2) (ymd 2023 1 5)).
  - exact wf_scenario_df.
  - reflexivity.
  - exact Hin.
Defined.

Lemma select_nil_r {A} (mask : list bool) : select mask (@nil A) = [].
Proof. by destruct mask. Qed.

Lemma select_map {A B} (f : A → B) (mask : list bool) (l : list A) :
  select mask (map f l) = map f (select mask l).
Proof.
  revert l; induction mask as [|b mask IH]; intros [|x l]; simpl; try done.
  destruct b; simpl; by rewrite IH.
Qed.

Lemma col_cells_select (mask : list bool) (c : column) :
  col_cells (col_select mask c) = select mask (col_cells c).
Proof. destruct c; simpl; by rewrite select_map. Qed.

(** Selecting in every column and in the index is selecting among the
    rows. *)
Lemma rows_of_select (mask : list bool) (idx : list Z) (cols : list (list cell)) :
  rows_of (select mask idx) (map (select mask) cols) = select mask (rows_of idx cols).
Proof.
  revert idx cols; induction mask as [|b mask IH]; intros [|i idx] cols;
    try reflexivity.
  assert (map tail (map (select (true :: mask)) cols)
          = map (select mask) (map tail cols)) as Ht.
  { rewrite !map_map. apply map_ext. intros [|x l]; simpl; [by rewrite select_nil_r|done]. }
  assert (map head (map (select (true :: mask)) cols) = map head cols) as Hh.
  { rewrite map_map. apply map_ext. by intros [|x l]. }
  assert (map (select (false :: mask)) cols = map (select mask) (map tail cols)) as Hf.
  { rewrite map_map. apply map_ext. intros [|x l]; simpl; [by rewrite select_nil_r|done]. }
  destruct b.
  - change (rows_of (i :: select mask idx) (map (select (true :: mask)) cols)
            = (i, map head cols) :: select mask (rows_of idx (map tail cols))).
    change (rows_of (i :: select mask idx) (map (select (true :: mask)) cols))
      with ((i, map head (map (select (true :: mask)) cols))
            :: rows_of (select mask idx) (map tail (map (select (true :: mask)) cols))).
    by rewrite Hh, Ht, IH.
  - change (rows_of (select mask idx) (map (select (false :: mask)) cols)
            = select mask (rows_of idx (map tail cols))).
    by rewrite Hf, IH.
Qed.

Lemma rows_boolean_index (df : DataFrame) (mask : list bool) :
  rows (boolean_index df mask) = select mask (rows df).
Proof.
  unfold rows, boolean_index. simpl. rewrite <- rows_of_select. f_equal.
  rewrite !map_map. apply map_ext. intros [n c]. simpl. apply col_cells_select.
Qed.

(** X2.  The filter keeps the shape of the table: the result is again a
    table whose columns all have the length of its index, it has the same
    columns in the same order, and its rows - the label of a row with its
    value in every column - are rows of the input, in their original
    order. *)
Theorem filter_keeps_shape (df out : DataFrame) (start_date end_date : Z) :
  wf df →
  filter_data df start_date end_date = Ok out →
  wf out ∧ column_names out = column_names df ∧
  sublist (index out) (index df) ∧
  sublist (rows out) (rows df) ∧
  ∃ mask, date_mask df start_date end_date = Ok mask ∧
          rows out = select mask (rows df).
Proof.
  intros Hwf Hf. unfold filter_data in Hf.
  destruct (date_mask df start_date end_date) as [mask| |]; simpl in Hf; try done.
  injection Hf as <-.
  split; [by apply wf_boolean_index|].
  split; [apply column_names_boolean_index|].
  split; [apply select_sublist|].
  rewrite rows_boolean_index. split; [apply select_sublist|]. by exists mask.
Qed.

Lemma filter_keeps_shape_witness :
  wf nat_df ∧
  ∃ out, filter_data nat_df (ymd 2023 1 1) (ymd 2023 1 1) = Ok out ∧
         wf out ∧ column_names out = column_names nat_df ∧
         sublist (index out) (index nat_df) ∧
         sublist (rows out) (rows nat_df) ∧
         ∃ mask, date_mask nat_df (ymd 2023 1 1) (ymd 2023 1 1) = Ok mask ∧
                 rows out = select mask (rows nat_df).
Proof.
  split; [exact wf_nat_df|]. eexists. split; [reflexivity|].
  apply (filter_keeps_shape nat_df _ (ymd 2023 1 1) (ymd 2023 1 1));
    [exact wf_nat_df|reflexivity].
Defined.

Lemma col_select_select (p q : option Z → bool) (v : list (option Z)) (c : column) :
  col_select (map p (select (map q v) v)) (col_select (map q v) c)
  = col_select (map (λ x, q x && p x) v) c.
Proof. destruct c; simpl; by rewrite select_select. Qed.

Lemma boolean_index_twice (p q : option Z → bool) (v : list (option Z)) (df : DataFrame) :
  boolean_index (boolean_index df (map q v)) (map p (select (map q v) v))
  = boolean_index df (map (λ x, q x && p x) v).
Proof.
  unfold boolean_index. simpl. rewrite select_select, map_map. f_equal.
  apply map_ext. intros [n c]. simpl. by rewrite col_select_select.
Qed.

(** X3.  Filters compose as intervals intersect: filtering the result of a
    filter gives the table that the filter on the intersection of the two
    intervals gives on the input.  In particular, filtering a second time
    with the same interval changes nothing. *)
Theorem filter_compose (df mid : DataFrame) (v : list (option Z)) (s1 e1 s2 e2 : Z) :
  getitem df "pickup_datetime" = Ok (Datetime64 v) →
  filter_data df s1 e1 = Ok mid →
  filter_data mid s2 e2 = filter_data df (Z.max s1 s2) (Z.min e1 e2) ∧
  filter_data mid s1 e1 = Ok mid.
Proof.
  intros Hget Hf.
  pose proof (filter_data_returns df mid v _ _ Hget Hf) as Hv.
  rewrite (filter_data_eq df v _ _ Hget Hv) in Hf. injection Hf as <-.
  pose proof (getitem_boolean_index df (map (in_interval s1 e1) v) _ _ Hget) as Hmid.
  simpl in Hmid.
  assert (all_nat (select (map (in_interval s1 e1) v) v) = false) as Hv'.
  { apply all_nat_is_Some. eapply Forall_impl; [apply select_pred|].
    intros x Hx. apply in_interval_spec in Hx as (ts & -> & _). by eexists. }
  assert (∀ s e, filter_data (boolean_index df (map (in_interval s1 e1) v)) s e
                 = filter_data df (Z.max s1 s) (Z.min e1 e)) as Hall.
  { intros s e.
    rewrite (filter_data_eq _ _ s e Hmid Hv'), (filter_data_eq df v _ _ Hget Hv).
    rewrite boolean_index_twice. do 2 f_equal.
    apply map_ext. intros x. by rewrite in_interval_inter. }
  split; [apply Hall|].
  rewrite Hall, Z.max_id, Z.min_id. exact (filter_data_eq df v _ _ Hget Hv).
Qed.

Lemma filter_compose_witness :
  ∃ mid,
    getitem scenario_df "pickup_datetime"
      = Ok (Datetime64 [Some (midnight (ymd 2023 1 1)); Some (midnight (ymd 2023 1 2));
                        Some (midnight (ymd 2023 1 5))]) ∧
    filter_data scenario_df (ymd 2023 1 1) (ymd 2023 1 2) = Ok mid ∧
    filter_data mid (ymd 2023 1 2) (ymd 2023 1 5)
      = filter_data scenario_df (Z.max (ymd 2023 1 1) (ymd 2023 1 2))
                                (Z.min (ymd 2023 1 2) (ymd 2023 1 5)) ∧
    filter_data mid (ymd 2023 1 1) (ymd 2023 1 2) = Ok mid.
Proof.
  eexists. split; [reflexivity|]. split; [reflexivity|].
  apply (filter_compose scenario_df _
           [Some (midnight (ymd 2023 1 1)); Some (midnight (ymd 2023 1 2));
            Some (midnight (ymd 2023 1 5))]); reflexivity.
Defined.

Lemma select_none {A B} (p : A → bool) (v : list A) (l : list B) :
  Forall (λ x, p x = false) v → select (map p v) l = [].
Proof.
  intros H. revert l. induction H as [|x v Hx _ IH]; intros [|y l]; simpl; try done.
  by rewrite Hx.
Qed.

(** X4.  On a table with at least one pickup instant, an interval that
    holds no pickup date of the table gives a table without rows, not an
    error: so does an interval whose end is before its start, one that
    starts after the latest pickup date, and one that ends before the
    earliest. *)
Theorem filter_outside_span_empty (df : DataFrame) (v : list (option Z))
    (t0 start_date end_date : Z) :
  getitem df "pickup_datetime" = Ok (Datetime64 v) →
  In (Some t0) v →
  end_date < start_date ∨
  (∃ hi, max_date df = Ok (Some hi) ∧ hi < start_date) ∨
  (∃ lo, min_date df = Ok (Some lo) ∧ end_date < lo) →
  ∃ out, filter_data df start_date end_date = Ok out ∧
         filtered_df df [start_date; end_date] = Ok out ∧
         len out = 0%nat ∧ empty out = true.
Proof.
  intros Hget Hin Hout.
  exists (boolean_index df (map (in_interval start_date end_date) v)).
  pose proof (filter_data_eq df v start_date end_date Hget (all_nat_In v t0 Hin)) as Hf.
  split; [exact Hf|]. split; [by rewrite filtered_df_filter_data|].
  assert (select (map (in_interval start_date end_date) v) (index df) = []) as Hnil.
  { apply select_none. rewrite Forall_forall. intros x Hx.
    apply not_true_is_false. intros (ts & -> & Hts)%in_interval_spec.
    apply list_elem_of_In in Hx.
    destruct (series_min_max v ts Hx) as (lo & hi & Hmin & Hmax & _ & _ & Hb).
    destruct (Hb ts Hx) as [H1%dt_date_mono H2%dt_date_mono].
    unfold max_date, min_date in Hout. rewrite Hget in Hout. simpl in Hout.
    rewrite Hmin, Hmax in Hout. simpl in Hout.
    destruct Hout as [?|[(? & [= <-] & ?)|(? & [= <-] & ?)]]; lia. }
  unfold empty, len. simpl. by rewrite Hnil.
Qed.

Lemma filter_outside_span_empty_witness :
  getitem scenario_df "pickup_datetime"
    = Ok (Datetime64 [Some (midnight (ymd 2023 1 1)); Some (midnight (ymd 2023 1 2));
                      Some (midnight (ymd 2023 1 5))]) ∧
  In (Some (midnight (ymd 2023 1 1)))
     [Some (midnight (ymd 2023 1 1)); Some (midnight (ymd 2023 1 2));
      Some (midnight (ymd 2023 1 5))] ∧
  (ymd 2023 2 28 < ymd 2023 2 1 ∨
   (∃ hi, max_date scenario_df = Ok (Some hi) ∧ hi < ymd 2023 2 1) ∨
   (∃ lo, min_date scenario_df = Ok (Some lo) ∧ ymd 2023 2 28 < lo)) ∧
  ∃ out, filter_data scenario_df (ymd 2023 2 1) (ymd 2023 2 28) = Ok out ∧
         filtered_df scenario_df [ymd 2023 2 1; ymd 2023 2 28] = Ok out ∧
         len out = 0%nat ∧ empty out = true.
Proof.
  assert (∃ hi, max_date scenario_df = Ok (Some hi) ∧ hi < ymd 2023 2 1) as H
    by (eexists; split; [reflexivity|reflexivity]).
  assert (In (Some (midnight (ymd 2023 1 1)))
            [Some (midnight (ymd 2023 1 1)); Some (midnight (ymd 2023 1 2));
             Some (midnight (ymd 2023 1 5))]) as Hin by (by left).
  split; [reflexivity|]. split; [exact Hin|]. split; [right; left; exact H|].
  apply (filter_outside_span_empty scenario_df
           [Some (midnight (ymd 2023 1 1)); Some (midnight (ymd 2023 1 2));
            Some (midnight (ymd 2023 1 5))] (midnight (ymd 2023 1 1))
           (ymd 2023 2 1) (ymd 2023 2 28));
    [reflexivity|exact Hin|right; left; exact H].
Defined.

(** * Further properties of the daily counts and of the reductions *)

Lemma total_counts_present (n : nat) (d0 : Z) (v : list (option Z)) :
  Forall (λ x, ∀ ts, x = Some ts → d0 ≤ dt_date ts < d0 + Z.of_nat n) v →
  total (map (λ d, count_on_day d v) (seqZ d0 (Z.of_nat n)))
  = Z.of_nat (length (List.filter notna v)).
Proof.
  induction 1 as [|x v Hx _ IH].
  - simpl. apply total_map_zero.
  - erewrite map_ext; [|intros d; apply count_on_day_cons].
    rewrite total_map_add, IH. destruct x as [ts|]; simpl.
    + rewrite total_indicator, bool_decide_eq_true_2 by (by apply Hx). lia.
    + by rewrite total_map_zero.
Qed.

(** X5.  On a table with at least one pickup instant, whatever the number
    of rows without one, the daily counts have one entry per calendar date
    from the earliest to the latest pickup date, in increasing order, and
    add up to the number of rows that have a pickup instant. *)
Theorem daily_counts_count_present (df : DataFrame) (v : list (option Z)) (t0 : Z) :
  getitem df "pickup_datetime" = Ok (Datetime64 v) →
  In (Some t0) v →
  ∃ lo hi series,
    min_date df = Ok (Some lo) ∧ max_date df = Ok (Some hi) ∧ lo ≤ hi ∧
    aggregate_daily_trips df = Ok series ∧
    map fst series = map midnight (seqZ lo (hi - lo + 1)) ∧
    total (map snd series) = Z.of_nat (length (List.filter notna v)).
Proof.
  intros Hget Hin.
  destruct (series_min_max v t0 Hin) as (first & last & Hmin & Hmax & Hfirst & _ & Hb).
  assert (dt_date first ≤ dt_date last) as Hle
    by (apply dt_date_mono; destruct (Hb first Hfirst); lia).
  eexists (dt_date first), (dt_date last), _.
  split; [by unfold min_date; rewrite Hget; simpl; rewrite Hmin|].
  split; [by unfold max_date; rewrite Hget; simpl; rewrite Hmax|].
  split; [done|].
  split; [exact (resample_eq df v first last Hget Hmin Hmax)|].
  split; [by rewrite map_map|].
  rewrite map_map. simpl.
  replace (dt_date last - dt_date first + 1)
    with (Z.of_nat (Z.to_nat (dt_date last - dt_date first + 1))) by lia.
  apply total_counts_present.
  rewrite Forall_forall. intros x Hx ts ->.
  apply list_elem_of_In in Hx. destruct (Hb ts Hx) as [H1 H2].
  apply dt_date_mono in H1, H2. lia.
Qed.

Lemma daily_counts_count_present_witness :
  getitem nat_df "pickup_datetime"
    = Ok (Datetime64 [Some (midnight (ymd 2023 1 1)); None]) ∧
  In (Some (midnight (ymd 2023 1 1))) [Some (midnight (ymd 2023 1 1)); None] ∧
  ∃ lo hi series,
    min_date nat_df = Ok (Some lo) ∧ max_date nat_df = Ok (Some hi) ∧ lo ≤ hi ∧
    aggregate_daily_trips nat_df = Ok series ∧
    map fst series = map midnight (seqZ lo (hi - lo + 1)) ∧
    total (map snd series)
      = Z.of_nat (length (List.filter notna [Some (midnight (ymd 2023 1 1)); None])).
Proof.
  split; [reflexivity|]. split; [by left|].
  apply (daily_counts_count_present nat_df
           [Some (midnight (ymd 2023 1 1)); None] (midnight (ymd 2023 1 1)));
    [reflexivity|by left].
Defined.

Lemma fold_add_zeros (v : list float) :
  Forall (λ x, PrimFloat.is_nan x = true) v →
  fold_left PrimFloat.add (map fillna0 v) 0%float = 0%float ∧
  fold_left (λ a x, round32 (PrimFloat.add a x)) (map fillna0 v) 0%float = 0%float ∧
  count_valid v = 0.
Proof.
  unfold count_valid. induction 1 as [|x v Hx _ (IH1 & IH2 & IH3)]; simpl; [done|].
  unfold fillna0 in *. rewrite Hx. simpl.
  change (PrimFloat.add 0 0) with 0%float.
  change (round32 0) with 0%float. done.
Qed.

(** X6.  When every value of a numeric column is missing (NaN), the column
    behaves like an empty one: its mean is NaN and its sum is 0, in
    float64 and in float32. *)
Theorem reductions_all_missing (v : list float) :
  Forall (λ x, PrimFloat.is_nan x = true) v →
  series_mean (Float64 v) = Ok nan ∧ series_sum (Float64 v) = Ok 0%float ∧
  series_mean (Float32 v) = Ok nan ∧ series_sum (Float32 v) = Ok 0%float.
Proof.
  intros H. destruct (fold_add_zeros v H) as (H1 & H2 & H3).
  unfold series_mean, series_sum, nanmean64, nanmean32, nansum64, nansum32.
  by rewrite H1, H2, H3.
Qed.

Lemma reductions_all_missing_witness :
  Forall (λ x, PrimFloat.is_nan x = true) [nan; nan] ∧
  series_mean (Float64 [nan; nan]) = Ok nan ∧
  series_sum (Float64 [nan; nan]) = Ok 0%float ∧
  series_mean (Float32 [nan; nan]) = Ok nan ∧
  series_sum (Float32 [nan; nan]) = Ok 0%float.
Proof.
  assert (Forall (λ x, PrimFloat.is_nan x = true) [nan; nan]) as H
    by (repeat constructor).
  split; [exact H|]. exact (reductions_all_missing [nan; nan] H).
Defined.

(** * The password check and the page behind it

    [secrets] is the content of [secrets.toml]; the file is taken to exist,
    with or without a ["password"] entry. *)

Ltac unfold_script :=
  unfold text_input, register_key;
  unfold bind, show, get_session, set_session, del_session, session_get, secrets_get,
    ask, ret, lift, raise, st_stop, with_screen, with_session; simpl.

(** X7.  [check_password] never raises and reads nothing.  It answers
    with a true value exactly when a password is configured and
    [password_correct] holds a true value in the session.  It shows an
    error when no password is configured, the password field when one is
    configured and no attempt has been recorded, and nothing otherwise -
    in particular nothing after a failed attempt.  It leaves the session
    state as it is, except that showing the password field puts the key
    ["password"] in it, with the empty string, when the key is not there
    yet. *)
Theorem check_password_contract (env : Env) (m : Mem) :
  ∃ v m',
    check_password env m = (Done v, m') ∧
    reads m' = reads m ∧
    (truthy v = true ↔
       is_Some (secrets env !! "password") ∧
       ∃ pv, session_state m !! "password_correct" = Some pv ∧ truthy pv = true) ∧
    screen m' =
      (screen m ++
       match secrets env !! "password", session_state m !! "password_correct" with
       | None, _ => [st_error [Lit "Password not configured in secrets.toml"]]
       | Some _, None => [st_text_input "Password" "password"]
       | Some _, Some _ => []
       end)%list ∧
    session_state m' =
      match secrets env !! "password", session_state m !! "password_correct",
            session_state m !! "password" with
      | Some _, None, None => <["password" := SStr ""]> (session_state m)
      | _, _, _ => session_state m
      end.
Proof.
  unfold check_password. unfold_script.
  destruct (secrets env !! "password") as [s|] eqn:Hs.
  - rewrite bool_decide_eq_true_2 by eauto. simpl.
    destruct (session_state m !! "password_correct") as [pv|] eqn:Hp.
    + rewrite bool_decide_eq_true_2 by eauto. simpl. rewrite Hp.
      eexists _, _. split; [reflexivity|]. split; [done|].
      split; [|split; [by rewrite app_nil_r|by destruct (session_state m !! "password")]].
      split; [intros; split; eauto|]. by intros (_ & pv' & [= <-] & ?).
    + rewrite bool_decide_eq_false_2 by (by intros [??]). simpl.
      eexists _, _. split; [reflexivity|]. split; [done|].
      split; [split; [done|by intros (_ & ? & ? & _)]|]. split; [done|].
      simpl. unfold register.
      destruct (session_state m !! "password") eqn:Hw.
      * by rewrite bool_decide_eq_true_2 by eauto.
      * by rewrite bool_decide_eq_false_2 by (by intros [??]).
  - rewrite bool_decide_eq_false_2 by (by intros [??]). simpl.
    eexists _, _. split; [reflexivity|]. split; [done|].
    split; [split; [done|by intros ([??] & _)]|]. split; [done|].
    by destruct (session_state m !! "password_correct"),
                (session_state m !! "password").
Qed.

Lemma lookup_password_correct_data_loaded (ss : gmap string sval) (v : sval) :
  <["data_loaded" := v]> ss !! "password_correct" = ss !! "password_correct".
Proof. by rewrite lookup_insert_ne. Qed.

Lemma bool_decide_is_Some_Some {A} (x : A) : bool_decide (is_Some (Some x)) = true.
Proof. apply bool_decide_eq_true_2. eauto. Qed.

Lemma bool_decide_is_Some_None {A} : bool_decide (is_Some (@None A)) = false.
Proof. apply bool_decide_eq_false_2. by intros [??]. Qed.

Ltac decide_lookups :=
  rewrite ?lookup_password_correct_data_loaded,
    ?bool_decide_is_Some_Some, ?bool_decide_is_Some_None; simpl.

Ltac exists_shown shown H :=
  destruct (bool_decide (is_Some (session_state _ !! "data_loaded")));
  simpl; do 3 (decide_lookups; rewrite ?H; simpl);
  eexists _, shown; (split; [reflexivity|]); simpl;
  (do 3 (split; [reflexivity|])); rewrite <- ?app_assoc; simpl; auto.

(** X8.  Without a configured password, before any attempt, and after a
    failed attempt, a run of the script ends normally without reading any
    file and without touching the caches; it shows the page header, at
    most one of the configuration error and the password field, and the
    request for the password, and nothing of the dashboard. *)
Theorem app_closed_without_password (selection : option (list Z)) (env : Env) (m : Mem) :
  secrets env !! "password" = None ∨
  session_state m !! "password_correct" = None ∨
  session_state m !! "password_correct" = Some (SBool false) →
  ∃ m' shown,
    app selection env m = (Done (), m') ∧
    reads m' = reads m ∧
    load_data_cache m' = load_data_cache m ∧
    load_parquet_data_cache m' = load_parquet_data_cache m ∧
    screen m' =
      (screen m ++ [st_set_page_config; st_markdown custom_css] ++ shown ++
       [st_warning "Please enter the correct password to view the dashboard."])%list ∧
    (shown = [] ∨
     shown = [st_error [Lit "Password not configured in secrets.toml"]] ∨
     shown = [st_text_input "Password" "password"]).
Proof.
  intros H. unfold app, check_password. unfold_script.
  destruct (secrets env !! "password") as [s|] eqn:Hs.
  - destruct H as [H|[H|H]]; [done| |].
    + exists_shown [st_text_input "Password" "password"] H.
    + exists_shown (@nil ui) H.
  - exists_shown [st_error [Lit "Password not configured in secrets.toml"]] H.
Qed.

Lemma app_closed_without_password_witness :
  (secrets secret_env !! "password" = None ∨
   session_state empty_mem !! "password_correct" = None ∨
   session_state empty_mem !! "password_correct" = Some (SBool false)) ∧
  ∃ m' shown,
    app None secret_env empty_mem = (Done (), m') ∧
    reads m' = reads empty_mem ∧
    load_data_cache m' = load_data_cache empty_mem ∧
    load_parquet_data_cache m' = load_parquet_data_cache empty_mem ∧
    screen m' =
      (screen empty_mem ++ [st_set_page_config; st_markdown custom_css] ++ shown ++
       [st_warning "Please enter the correct password to view the dashboard."])%list ∧
    (shown = [] ∨
     shown = [st_error [Lit "Password not configured in secrets.toml"]] ∨
     shown = [st_text_input "Password" "password"]).
Proof.
  assert (session_state empty_mem !! "password_correct" = None) as H by reflexivity.
  split; [right; left; exact H|].
  apply (app_closed_without_password None secret_env empty_mem).
  right; left; exact H.
Defined.

(** X9.  A failed attempt closes the session: once a password that differs
    from the configured one has been submitted, the next run of the script
    shows the page header and the request for the password, but no
    password field, and reads nothing. *)
Theorem failed_attempt_locks_session (selection : option (list Z)) (env : Env) (m : Mem)
    (typed : string) (secret : sval) :
  secrets env !! "password" = Some secret →
  SStr typed ≠ secret →
  ∃ m1 m2,
    submit_password typed env m = (Done (), m1) ∧
    session_state m1 !! "password_correct" = Some (SBool false) ∧
    app selection env m1 = (Done (), m2) ∧
    reads m2 = reads m ∧
    screen m2 =
      (screen m ++
       [st_set_page_config; st_markdown custom_css;
        st_warning "Please enter the correct password to view the dashboard."])%list.
Proof.
  intros Hs Hne.
  assert (∀ ss : gmap string sval,
            <["password_correct" := SBool false]> (<["password" := SStr typed]> ss)
              !! "password_correct" = Some (SBool false)) as H
    by (intros; apply lookup_insert_eq).
  set (m1 := mkMem (<["password_correct" := SBool false]>
                      (<["password" := SStr typed]> (session_state m)))
                   (load_data_cache m) (load_parquet_data_cache m) (reads m) (screen m)).
  assert (submit_password typed env m = (Done (), m1)) as H1.
  { unfold submit_password, password_entered. unfold_script.
    do 3 (rewrite ?lookup_insert_eq, ?bool_decide_is_Some_Some, ?Hs; simpl).
    by rewrite bool_decide_eq_false_2 by done. }
  assert (∃ m2, app selection env m1 = (Done (), m2) ∧ reads m2 = reads m ∧
                screen m2 =
                  (screen m ++
                   [st_set_page_config; st_markdown custom_css;
                    st_warning "Please enter the correct password to view the dashboard."])%list)
    as (m2 & H2 & Hr & Hscr).
  { unfold app, check_password, m1. unfold_script. rewrite Hs.
    match goal with
    | |- context [bool_decide (is_Some (?ss !! "data_loaded"))] =>
        destruct (bool_decide (is_Some (ss !! "data_loaded")))
    end; simpl; do 3 (decide_lookups; rewrite ?H; simpl);
      eexists; (split; [reflexivity|]); simpl; rewrite <- ?app_assoc; done. }
  exists m1, m2. split; [exact H1|]. split; [apply H|]. done.
Qed.

Lemma failed_attempt_locks_session_witness :
  secrets secret_env !! "password" = Some (SStr "s3cret") ∧
  SStr "guess" ≠ SStr "s3cret" ∧
  ∃ m1 m2,
    submit_password "guess" secret_env empty_mem = (Done (), m1) ∧
    session_state m1 !! "password_correct" = Some (SBool false) ∧
    app None secret_env m1 = (Done (), m2) ∧
    reads m2 = reads empty_mem ∧
    screen m2 =
      (screen empty_mem ++
       [st_set_page_config; st_markdown custom_css;
        st_warning "Please enter the correct password to view the dashboard."])%list.
Proof.
  assert (SStr "guess" ≠ SStr "s3cret") as Hne by discriminate.
  split; [reflexivity|]. split; [exact Hne|].
  apply (failed_attempt_locks_session None secret_env empty_mem "guess" (SStr "s3cret"));
    [reflexivity|exact Hne].
Defined.

(** X10.  A correct attempt opens the session and forgets the credential:
    once the configured password has been submitted, the credential is no
    longer in the session state and [check_password] answers [True],
    showing nothing and leaving the session state as it is. *)
Theorem correct_attempt_opens_session (env : Env) (m : Mem) (typed : string) :
  secrets env !! "password" = Some (SStr typed) →
  ∃ m1,
    submit_password typed env m = (Done (), m1) ∧
    session_state m1 !! "password" = None ∧
    check_password env m1 = (Done (SBool true), m1).
Proof.
  intros Hs.
  unfold submit_password, password_entered. unfold_script.
  do 3 (rewrite ?lookup_insert_eq, ?bool_decide_is_Some_Some, ?Hs; simpl).
  rewrite bool_decide_eq_true_2 by done. simpl.
  rewrite lookup_insert_ne, lookup_insert_eq by done.
  eexists. split; [reflexivity|]. simpl. split; [apply lookup_delete_eq|].
  unfold check_password. unfold_script. rewrite Hs, bool_decide_is_Some_Some. simpl.
  rewrite lookup_delete_ne, lookup_insert_eq, bool_decide_is_Some_Some by done.
  simpl. rewrite lookup_delete_ne, lookup_insert_eq by done. reflexivity.
Qed.

Lemma correct_attempt_opens_session_witness :
  secrets secret_env !! "password" = Some (SStr "s3cret") ∧
  ∃ m1,
    submit_password "s3cret" secret_env empty_mem = (Done (), m1) ∧
    session_state m1 !! "password" = None ∧
    check_password secret_env m1 = (Done (SBool true), m1).
Proof.
  split; [reflexivity|].
  apply (correct_attempt_opens_session secret_env empty_mem "s3cret"). reflexivity.
Defined.

(** * Failures and expiry in the loaders *)

(** X11.  A failed read is cached by [load_parquet_data]: when the file is
    missing or does not parse, the call shows the read error and returns
    [None]; every later call for the path, whatever the file has become and
    whenever it is made, returns [None] again without reading, and shows
    the recorded error again. *)
Theorem failed_load_is_cached (path : string) (env1 env2 : Env) (m : Mem) :
  load_parquet_data_cache m !! path = None →
  files env1 !! path = None ∨ files env1 !! path = Some Corrupt →
  ∃ m1 m2,
    load_parquet_data path env1 m = (Done None, m1) ∧
    reads m1 = path :: reads m ∧
    screen m1 = (screen m ++
      [st_error [Lit "Error reading parquet file: "; Fmt (PyExn (ReadError path)) ""]])%list ∧
    load_parquet_data path env2 m1 = (Done None, m2) ∧
    reads m2 = reads m1 ∧
    screen m2 = (screen m1 ++
      [st_error [Lit "Error reading parquet file: "; Fmt (PyExn (ReadError path)) ""]])%list.
Proof.
  intros Hcold Hfile.
  set (err := st_error [Lit "Error reading parquet file: "; Fmt (PyExn (ReadError path)) ""]).
  assert (load_parquet_data_wrapped path env1 m
          = (Done None, with_screen (λ s, (s ++ [err])%list) (with_reads (cons path) m)))
    as Hw.
  { unfold load_parquet_data_wrapped, try_except, bind, read_parquet.
    by destruct Hfile as [-> | ->]. }
  unfold load_parquet_data, cache_data at 1. unfold cache_hit at 1.
  rewrite Hcold, Hw. simpl. rewrite drop_app_length.
  eexists _, _. split; [reflexivity|]. simpl. split; [done|]. split; [done|].
  unfold cache_data, cache_hit. simpl. rewrite lookup_insert_eq. simpl.
  split; [reflexivity|]. done.
Qed.

Lemma failed_load_is_cached_witness :
  load_parquet_data_cache empty_mem !! data_file = None ∧
  (files corrupt_env !! data_file = None ∨ files corrupt_env !! data_file = Some Corrupt) ∧
  ∃ m1 m2,
    load_parquet_data data_file corrupt_env empty_mem = (Done None, m1) ∧
    reads m1 = data_file :: reads empty_mem ∧
    screen m1 = (screen empty_mem ++
      [st_error [Lit "Error reading parquet file: ";
                 Fmt (PyExn (ReadError data_file)) ""]])%list ∧
    load_parquet_data data_file file_env m1 = (Done None, m2) ∧
    reads m2 = reads m1 ∧
    screen m2 = (screen m1 ++
      [st_error [Lit "Error reading parquet file: ";
                 Fmt (PyExn (ReadError data_file)) ""]])%list.
Proof.
  assert (files corrupt_env !! data_file = Some Corrupt) as H by (vm_compute; reflexivity).
  split; [reflexivity|]. split; [right; exact H|].
  apply (failed_load_is_cached data_file corrupt_env file_env empty_mem);
    [reflexivity|right; exact H].
Defined.

(** X12.  A failed read is not cached by [load_data]: when no live entry
    exists and the file is missing, does not parse or lacks one of the five
    columns, the call raises after one read and stores nothing, so that a
    second call reads the file again. *)
Theorem load_data_failure_not_cached (path : string) (env : Env) (m : Mem) :
  cache_hit (Some 3600) (clock env) (load_data_cache m) path = None →
  files env !! path = None ∨ files env !! path = Some Corrupt ∨
  (∃ t, files env !! path = Some (Table t) ∧
        project (columns t) columns_to_use = None) →
  ∃ m1 m2,
    load_data path env m = (Raised (ReadError path), m1) ∧
    load_data_cache m1 = load_data_cache m ∧
    reads m1 = path :: reads m ∧
    load_data path env m1 = (Raised (ReadError path), m2) ∧
    reads m2 = path :: path :: reads m.
Proof.
  intros Hcold Hfile.
  assert (∀ m0, load_data_wrapped path env m0
                = (Raised (ReadError path), with_reads (cons path) m0)) as Hw.
  { intros m0. unfold load_data_wrapped, bind, read_parquet.
    destruct Hfile as [-> | [-> | (t & -> & ->)]]; done. }
  assert (∀ m0, load_data_cache m0 = load_data_cache m →
                load_data path env m0
                = (Raised (ReadError path), with_reads (cons path) m0)) as Hl.
  { intros m0 E. unfold load_data, cache_data. by rewrite E, Hcold, Hw. }
  exists (with_reads (cons path) m), (with_reads (cons path) (with_reads (cons path) m)).
  split; [by apply Hl|]. split; [done|]. split; [done|].
  split; [by apply Hl|]. done.
Qed.

Lemma load_data_failure_not_cached_witness :
  cache_hit (Some 3600) (clock corrupt_env) (load_data_cache empty_mem) data_file = None ∧
  (files corrupt_env !! data_file = None ∨ files corrupt_env !! data_file = Some Corrupt ∨
   (∃ t, files corrupt_env !! data_file = Some (Table t) ∧
         project (columns t) columns_to_use = None)) ∧
  ∃ m1 m2,
    load_data data_file corrupt_env empty_mem = (Raised (ReadError data_file), m1) ∧
    load_data_cache m1 = load_data_cache empty_mem ∧
    reads m1 = data_file :: reads empty_mem ∧
    load_data data_file corrupt_env m1 = (Raised (ReadError data_file), m2) ∧
    reads m2 = data_file :: data_file :: reads empty_mem.
Proof.
  assert (files corrupt_env !! data_file = Some Corrupt) as H by (vm_compute; reflexivity).
  split; [reflexivity|]. split; [right; left; exact H|].
  apply (load_data_failure_not_cached data_file corrupt_env empty_mem);
    [reflexivity|right; left; exact H].
Defined.

(** X13.  An entry of [load_data] expires after 3600 seconds: a call made
    when the entry for the path is 3600 seconds old or older does not
    return the stored table; it reads the file once, returns the table of
    the file (the five columns, the numeric ones rounded to float32) and
    stores it with the time of the call. *)
Theorem load_data_expired_rereads (path : string) (env : Env) (m : Mem)
    (e : cached DataFrame) (t : DataFrame) cols (miles fare : list float) :
  load_data_cache m !! path = Some e →
  stored_at e + 3600 ≤ clock env →
  files env !! path = Some (Table t) →
  project (columns t) columns_to_use = Some cols →
  getitem t "trip_miles" = Ok (Float64 miles) →
  getitem t "base_passenger_fare" = Ok (Float64 fare) →
  ∃ df m' e',
    load_data path env m = (Done df, m') ∧
    reads m' = path :: reads m ∧
    index df = index t ∧ column_names df = columns_to_use ∧
    getitem df "trip_miles" = Ok (Float32 (map round32 miles)) ∧
    getitem df "base_passenger_fare" = Ok (Float32 (map round32 fare)) ∧
    load_data_cache m' !! path = Some e' ∧ value e' = df ∧ stored_at e' = clock env.
Proof.
  intros He Hold Hfile Hp Hm Hf.
  destruct (project_columns_to_use _ _ Hp) as (c1 & c2 & c3 & c4 & c5 & _ & _ & H3 & H4 & _ & ->).
  unfold getitem in Hm, Hf. rewrite H3 in Hm. rewrite H4 in Hf.
  injection Hm as ->. injection Hf as ->.
  unfold load_data, cache_data, cache_hit. rewrite He.
  rewrite (proj2 (Z.ltb_ge _ _)) by lia.
  unfold load_data_wrapped, bind, read_parquet. rewrite Hfile, Hp. simpl.
  eexists _, _, _. split; [reflexivity|]. simpl.
  rewrite lookup_insert_eq. repeat split; reflexivity.
Qed.

Lemma load_data_expired_rereads_witness :
  load_data_cache stale_mem !! data_file = Some (mkCached 0 nat_df []) ∧
  stored_at (mkCached 0 nat_df []) + 3600 ≤ clock hour_later_env ∧
  files hour_later_env !! data_file = Some (Table scenario_df) ∧
  project (columns scenario_df) columns_to_use = Some (columns scenario_df) ∧
  getitem scenario_df "trip_miles" = Ok (Float64 [5%float; 3%float; 1%float]) ∧
  getitem scenario_df "base_passenger_fare" = Ok (Float64 [10%float; 8%float; 4%float]) ∧
  ∃ df m' e',
    load_data data_file hour_later_env stale_mem = (Done df, m') ∧
    reads m' = data_file :: reads stale_mem ∧
    index df = index scenario_df ∧ column_names df = columns_to_use ∧
    getitem df "trip_miles" = Ok (Float32 (map round32 [5%float; 3%float; 1%float])) ∧
    getitem df "base_passenger_fare"
      = Ok (Float32 (map round32 [10%float; 8%float; 4%float])) ∧
    load_data_cache m' !! data_file = Some e' ∧ value e' = df ∧
    stored_at e' = clock hour_later_env.
Proof.
  assert (load_data_cache stale_mem !! data_file = Some (mkCached 0 nat_df [])) as H1
    by (vm_compute; reflexivity).
  assert (files hour_later_env !! data_file = Some (Table scenario_df)) as H2
    by (vm_compute; reflexivity).
  assert (stored_at (mkCached 0 nat_df []) + 3600 ≤ clock hour_later_env) as H3
    by (simpl; lia).
  split; [exact H1|]. split; [exact H3|]. split; [exact H2|].
  split; [reflexivity|]. split; [reflexivity|]. split; [reflexivity|].
  apply (load_data_expired_rereads data_file hour_later_env stale_mem
           (mkCached 0 nat_df []) scenario_df (columns scenario_df)
           [5%float; 3%float; 1%float] [10%float; 8%float; 4%float]);
    [exact H1|exact H3|exact H2|reflexivity|reflexivity|reflexivity].
Defined.

(** * Runs of the script behind the password *)

Ltac open_session Hs Hp :=
  unfold app, check_password; unfold_script;
  match goal with
  | |- context [bool_decide (is_Some (?ss !! "data_loaded"))] =>
      destruct (bool_decide (is_Some (ss !! "data_loaded")))
  end; simpl; do 3 (decide_lookups; rewrite ?Hs, ?Hp; simpl).

(** X14.  In an open session, when the data file does not exist and
    nothing has been uploaded, the run reports the missing file, shows the
    working directory and the upload field, and stops there: nothing is
    read, and the stop is not turned into an error by the exception
    handler. *)
Theorem app_stops_without_data (selection : option (list Z)) (env : Env) (m : Mem)
    (s : sval) :
  secrets env !! "password" = Some s →
  session_state m !! "password_correct" = Some (SBool true) →
  files env !! data_file = None →
  uploaded_file env = None →
  ∃ m',
    app selection env m = (Stopped, m') ∧
    reads m' = reads m ∧
    screen m' =
      (screen m ++
       [st_set_page_config; st_markdown custom_css;
        st_title "🚗 Uber Trip Analysis - NYC";
        st_error [Lit "Data file not found at: "; Fmt (PyStr data_file) ""];
        st_write "Current working directory:" (Some (PyStr (cwd env)));
        st_file_uploader "Upload your Uber dataset (Parquet format)"])%list.
Proof.
  intros Hs Hp Hfile Hup.
  open_session Hs Hp;
    unfold try_except, acquire_df; unfold_script;
    do 3 (rewrite ?Hfile, ?Hup; decide_lookups);
    eexists; (split; [reflexivity|]); simpl; rewrite <- ?app_assoc; done.
Qed.

Lemma app_stops_without_data_witness :
  secrets secret_env !! "password" = Some (SStr "s3cret") ∧
  session_state authorized_mem !! "password_correct" = Some (SBool true) ∧
  files secret_env !! data_file = None ∧
  uploaded_file secret_env = None ∧
  ∃ m',
    app None secret_env authorized_mem = (Stopped, m') ∧
    reads m' = reads authorized_mem ∧
    screen m' =
      (screen authorized_mem ++
       [st_set_page_config; st_markdown custom_css;
        st_title "🚗 Uber Trip Analysis - NYC";
        st_error [Lit "Data file not found at: "; Fmt (PyStr data_file) ""];
        st_write "Current working directory:" (Some (PyStr (cwd secret_env)));
        st_file_uploader "Upload your Uber dataset (Parquet format)"])%list.
Proof.
  split; [reflexivity|]. split; [reflexivity|]. split; [reflexivity|].
  split; [reflexivity|].
  apply (app_stops_without_data None secret_env authorized_mem (SStr "s3cret"));
    reflexivity.
Defined.

(** X15.  In an open session, when the data file exists but cannot be read
    as a Parquet table (and no result is cached for it), the run shows the
    read error and ["Failed to load data."] and stops, after a single
    read. *)
Theorem app_stops_on_unreadable_file (selection : option (list Z)) (env : Env) (m : Mem)
    (s : sval) :
  secrets env !! "password" = Some s →
  session_state m !! "password_correct" = Some (SBool true) →
  files env !! data_file = Some Corrupt →
  load_parquet_data_cache m !! data_file = None →
  ∃ m',
    app selection env m = (Stopped, m') ∧
    reads m' = data_file :: reads m ∧
    screen m' =
      (screen m ++
       [st_set_page_config; st_markdown custom_css;
        st_title "🚗 Uber Trip Analysis - NYC";
        st_error [Lit "Error reading parquet file: ";
                  Fmt (PyExn (ReadError data_file)) ""];
        st_error [Lit "Failed to load data."]])%list.
Proof.
  intros Hs Hp Hfile Hcold.
  open_session Hs Hp;
    unfold try_except, acquire_df, load_parquet_data, cache_data, cache_hit,
      load_parquet_data_wrapped, try_except, read_parquet, with_reads,
      with_load_parquet_data_cache;
    unfold_script; do 4 (rewrite ?Hfile, ?Hcold; decide_lookups);
    eexists; (split; [reflexivity|]); simpl; rewrite <- ?app_assoc; done.
Qed.

Lemma app_stops_on_unreadable_file_witness :
  secrets corrupt_env !! "password" = Some (SStr "s3cret") ∧
  session_state authorized_mem !! "password_correct" = Some (SBool true) ∧
  files corrupt_env !! data_file = Some Corrupt ∧
  load_parquet_data_cache authorized_mem !! data_file = None ∧
  ∃ m',
    app None corrupt_env authorized_mem = (Stopped, m') ∧
    reads m' = data_file :: reads authorized_mem ∧
    screen m' =
      (screen authorized_mem ++
       [st_set_page_config; st_markdown custom_css;
        st_title "🚗 Uber Trip Analysis - NYC";
        st_error [Lit "Error reading parquet file: ";
                  Fmt (PyExn (ReadError data_file)) ""];
        st_error [Lit "Failed to load data."]])%list.
Proof.
  split; [reflexivity|]. split; [reflexivity|].
  split; [vm_compute; reflexivity|]. split; [reflexivity|].
  apply (app_stops_on_unreadable_file None corrupt_env authorized_mem (SStr "s3cret"));
    [reflexivity|reflexivity|vm_compute; reflexivity|reflexivity].
Defined.

Lemma bind_raised {A B} (c : Script A) (k : A → Script B) env m e m' :
  bind c k env m = (Raised e, m') →
  c env m = (Raised e, m') ∨
  ∃ a m0, c env m = (Done a, m0) ∧ k a env m0 = (Raised e, m').
Proof.
  unfold bind. destruct (c env m) as [[a|e0| |] m0]; intros H; try done.
  - right. by exists a, m0.
  - left. by injection H as -> ->.
Qed.

Lemma check_password_returns (env : Env) (m : Mem) :
  ∃ v m', check_password env m = (Done v, m').
Proof.
  unfold check_password. unfold_script.
  destruct (secrets env !! "password"); decide_lookups; [|by eexists _, _].
  destruct (session_state m !! "password_correct") eqn:E; decide_lookups;
    rewrite ?E; by eexists _, _.
Qed.

Lemma try_except_on_exception (body : Script unit) env m e m' :
  try_except body on_exception env m = (Raised e, m') →
  e = NameError "sys" ∧
  ∃ e0, st_error [Lit "An error occurred: "; Fmt (PyExn e0) ""] ∈ screen m'.
Proof.
  unfold try_except. destruct (body env m) as [[a|e0| |] m0]; try done.
  unfold on_exception. unfold_script. intros [= <- <-]. split; [done|].
  exists e0. simpl. set_solver.
Qed.

(** X16.  The only exception a run of the script can end with is the
    [NameError] for [sys]: whatever is raised while the data is loaded or
    shown is caught, reported as ["An error occurred"], and then the
    handler itself fails on [sys.version], [sys] not being imported. *)
Theorem app_raises_only_NameError (selection : option (list Z)) (env : Env)
    (m m' : Mem) (e : exn) :
  app selection env m = (Raised e, m') →
  e = NameError "sys" ∧
  ∃ e0, st_error [Lit "An error occurred: "; Fmt (PyExn e0) ""] ∈ screen m'.
Proof.
  unfold app. intros H.
  apply bind_raised in H as [H|(? & m1 & _ & H)]; [done|].
  apply bind_raised in H as [H|(ss & m2 & _ & H)]; [done|].
  apply bind_raised in H as [H|(? & m3 & _ & H)].
  { by destruct (negb _). }
  apply bind_raised in H as [H|(? & m4 & _ & H)]; [done|].
  apply bind_raised in H as [H|(ok & m5 & _ & H)].
  { destruct (check_password_returns env m4) as (v & m0 & E). by rewrite E in H. }
  destruct (truthy ok); [|done].
  apply bind_raised in H as [H|(? & m6 & _ & H)]; [done|].
  by apply try_except_on_exception in H.
Qed.

Lemma app_raises_only_NameError_witness :
  ∃ m',
    app (Some [ymd 2023 1 1]) wide_env authorized_mem = (Raised (NameError "sys"), m') ∧
    NameError "sys" = NameError "sys" ∧
    ∃ e0, st_error [Lit "An error occurred: "; Fmt (PyExn e0) ""] ∈ screen m'.
Proof.
  eexists. split; [vm_compute; reflexivity|].
  eapply (app_raises_only_NameError (Some [ymd 2023 1 1]) wide_env authorized_mem).
  vm_compute. reflexivity.
Defined.

(** * What the script reads *)

Create HintDb quiet.

Lemma quiet_ret {A} (a : A) : quiet (ret a).
Proof. by intros env m. Qed.
Lemma quiet_show (e : ui) : quiet (show e).
Proof. by intros env m. Qed.
Lemma quiet_lift {A} (r : result A) : quiet (lift r).
Proof. intros env m. by destruct r. Qed.
Lemma quiet_raise {A} (e : exn) : quiet (@raise A e).
Proof. by intros env m. Qed.
Lemma quiet_st_stop {A} : quiet (@st_stop A).
Proof. by intros env m. Qed.
Lemma quiet_beyond {A} : quiet (@beyond A).
Proof. by intros env m. Qed.
Lemma quiet_ask {A} (f : Env → A) : quiet (ask f).
Proof. by intros env m. Qed.
Lemma quiet_get_session : quiet get_session.
Proof. by intros env m. Qed.
Lemma quiet_set_session (key : string) (v : sval) : quiet (set_session key v).
Proof. by intros env m. Qed.
Lemma quiet_session_get (key : string) : quiet (session_get key).
Proof. intros env m. unfold session_get. by destruct (session_state m !! key). Qed.

Lemma quiet_bind {A B} (c : Script A) (k : A → Script B) :
  quiet c → (∀ a, quiet (k a)) → quiet (bind c k).
Proof.
  intros Hc Hk env m. unfold bind. specialize (Hc env m).
  destruct (c env m) as [[a| | |] m0]; simpl in *; try done.
  destruct (Hk a env m0) as (-> & -> & ->). done.
Qed.

#[local] Hint Resolve quiet_ret quiet_show quiet_lift quiet_raise quiet_st_stop quiet_beyond
  quiet_ask quiet_get_session quiet_set_session quiet_session_get : quiet.

Ltac quiet_steps :=
  repeat first
    [ apply quiet_bind; [|intros ?]
    | progress auto with quiet
    | match goal with
      | |- quiet (if ?b then _ else _) => destruct b
      | |- quiet (match ?x with _ => _ end) => destruct x
      end ].

Lemma quiet_check_password : quiet check_password.
Proof. unfold check_password. quiet_steps. Qed.

Lemma quiet_on_exception (e : exn) : quiet (on_exception e).
Proof. unfold on_exception. quiet_steps. Qed.

Lemma quiet_dashboard (df : DataFrame) (selection : option (list Z)) :
  quiet (dashboard df selection).
Proof.
  unfold dashboard, validate, date_input, metrics, charts. quiet_steps.
Qed.

Lemma quiet_one_read {A} (c : Script A) : quiet c → one_read c.
Proof. intros H env m. destruct (H env m) as (-> & -> & _). auto. Qed.

Lemma one_read_bind_l {A B} (c : Script A) (k : A → Script B) :
  one_read c → (∀ a, quiet (k a)) → one_read (bind c k).
Proof.
  intros Hc Hk env m. unfold bind. specialize (Hc env m).
  destruct (c env m) as [[a| | |] m0]; simpl in *; try done.
  destruct (Hk a env m0) as (-> & -> & _). done.
Qed.

Lemma one_read_bind_r {A B} (c : Script A) (k : A → Script B) :
  quiet c → (∀ a, one_read (k a)) → one_read (bind c k).
Proof.
  intros Hc Hk env m. unfold bind. specialize (Hc env m).
  destruct (c env m) as [[a| | |] m0]; simpl in *;
    try (destruct Hc as (-> & -> & _); by auto).
  destruct Hc as (<- & <- & _). apply Hk.
Qed.

Lemma one_read_try_except {A} (body : Script A) (handler : exn → Script A) :
  one_read body → (∀ e, quiet (handler e)) → one_read (try_except body handler).
Proof.
  intros Hb Hh env m. unfold try_except. specialize (Hb env m).
  destruct (body env m) as [[a|e| |] m0]; simpl in *; try done.
  destruct (Hh e env m0) as (-> & -> & _). done.
Qed.

Lemma one_read_load_parquet_data : one_read (load_parquet_data data_file).
Proof.
  intros env m. unfold load_parquet_data, cache_data.
  destruct (cache_hit None (clock env) (load_parquet_data_cache m) data_file);
    [by auto|].
  unfold load_parquet_data_wrapped, try_except, bind, read_parquet.
  destruct (files env !! data_file) as [[t|]|]; simpl; auto.
Qed.

Lemma one_read_acquire_df : one_read acquire_df.
Proof.
  unfold acquire_df. apply one_read_bind_r; [auto with quiet|]. intros found.
  destruct (negb found); [|apply one_read_load_parquet_data].
  apply quiet_one_read. unfold read_parquet_upload. quiet_steps.
Qed.

(** X17.  A run of the script hands at most one path to [pd.read_parquet],
    and only ["data/Uber_cleaned_data.parquet"]; it never touches the cache
    of [load_data], whatever the session, the files, the upload and the
    selection are. *)
Theorem app_reads_only_data_file (selection : option (list Z)) (env : Env) (m : Mem) :
  (reads (snd (app selection env m)) = reads m ∨
   reads (snd (app selection env m)) = data_file :: reads m) ∧
  load_data_cache (snd (app selection env m)) = load_data_cache m.
Proof.
  revert env m. change (one_read (app selection)). unfold app.
  apply one_read_bind_r; [auto with quiet|]. intros _.
  apply one_read_bind_r; [auto with quiet|]. intros ss.
  apply one_read_bind_r; [destruct (negb _); auto with quiet|]. intros _.
  apply one_read_bind_r; [auto with quiet|]. intros _.
  apply one_read_bind_r; [apply quiet_check_password|]. intros ok.
  destruct (truthy ok); [|apply quiet_one_read; auto with quiet].
  apply one_read_bind_r; [auto with quiet|]. intros _.
  apply one_read_try_except; [|apply quiet_on_exception].
  apply one_read_bind_l; [apply one_read_acquire_df|].
  intros [df|]; [apply quiet_dashboard|]. quiet_steps.
Qed.

(** * The dashboard on a table of the expected schema *)

Lemma assoc_set_same (name : string) (c : column) cols :
  assoc name cols = Some c → assoc_set name c cols = cols.
Proof.
  induction cols as [|[n c0] cols IH]; simpl; [done|].
  destruct (String.eqb name n); [by intros [= ->]|].
  intros H. by rewrite IH.
Qed.

Lemma getitem_has_column (df : DataFrame) (name : string) (c : column) :
  getitem df name = Ok c → has_column df name = true.
Proof.
  unfold getitem, has_column, column_names. intros H.
  destruct (assoc name (columns df)) as [c'|] eqn:E; [|done].
  apply bool_decide_eq_true_2, list_elem_of_In.
  apply assoc_In in E. change name with (fst (name, c')). by apply in_map.
Qed.

Lemma setitem_same (df : DataFrame) (name : string) (c : column) :
  getitem df name = Ok c → setitem df name c = df.
Proof.
  unfold getitem, setitem. destruct df as [idx cols]. simpl.
  destruct (assoc name cols) as [c'|] eqn:E; [|done].
  intros [= <-]. by rewrite assoc_set_same.
Qed.

(** Datetime columns that are datetime already are left as they are. *)
Lemma convert_datetime_cols_same (df : DataFrame) (vp vd : list (option Z)) :
  getitem df "pickup_datetime" = Ok (Datetime64 vp) →
  getitem df "dropoff_datetime" = Ok (Datetime64 vd) →
  convert_datetime_cols datetime_cols df = Ok df.
Proof.
  intros Hp Hd. unfold datetime_cols. simpl.
  rewrite (getitem_has_column _ _ _ Hp), Hp. simpl.
  rewrite (setitem_same _ _ _ Hp).
  rewrite (getitem_has_column _ _ _ Hd), Hd. simpl.
  by rewrite (setitem_same _ _ _ Hd).
Qed.

Lemma series_mean_float (c : column) :
  float_dtype c = true → ∃ x, series_mean c = Ok x.
Proof. destruct c; simpl; try done; eauto. Qed.

Lemma series_sum_float (c : column) :
  float_dtype c = true → ∃ x, series_sum c = Ok x.
Proof. destruct c; simpl; try done; eauto. Qed.

Lemma float_dtype_col_select (mask : list bool) (c : column) :
  float_dtype (col_select mask c) = float_dtype c.
Proof. by destruct c. Qed.

Lemma metrics_runs (filtered : DataFrame) (miles fare : column) (a b c : float) :
  getitem filtered "trip_miles" = Ok miles → series_mean miles = Ok a →
  getitem filtered "base_passenger_fare" = Ok fare →
  series_mean fare = Ok b → series_sum fare = Ok c →
  ∀ env m,
    metrics filtered env m =
      (Done (),
       with_screen (λ s, (s ++
         [st_columns 4;
          st_metric "Total Trips" [Fmt (PyInt (Z.of_nat (len filtered))) ","];
          st_metric "Avg Distance" [Fmt (PyFloat a) ".2f"; Lit " miles"];
          st_metric "Avg Fare" [Lit "$"; Fmt (PyFloat b) ".2f"];
          st_metric "Total Revenue" [Lit "$"; Fmt (PyFloat c) ",.2f"]])%list) m).
Proof.
  intros Hm Ha Hf Hb Hc env m. unfold metrics, bind, show, lift. rewrite Hm, Hf. simpl.
  rewrite Ha, Hb, Hc. destruct m. unfold with_screen. simpl.
  by rewrite <- !app_assoc.
Qed.

Lemma empty_len (df : DataFrame) (name : string) (c : column) :
  getitem df name = Ok c → empty df = bool_decide (len df = 0%nat).
Proof.
  unfold getitem, empty. destruct (columns df) as [|nc cols]; [done|]. intros _.
  simpl. rewrite orb_false_r. destruct (len df); done.
Qed.

Lemma charts_runs (filtered : DataFrame) (v : list (option Z)) (miles : column) :
  wf filtered →
  getitem filtered "pickup_datetime" = Ok (Datetime64 v) →
  Forall is_Some v →
  getitem filtered "trip_miles" = Ok miles →
  ∃ tail,
    (∀ env m, charts filtered env m = (Done (), with_screen (λ s, (s ++ tail)%list) m)) ∧
    ((len filtered = 0%nat ∧
      tail = [st_warning "No data available for the selected filters."]) ∨
     (len filtered ≠ 0%nat ∧
      ∃ daily, daily_trips filtered = Ok daily ∧
        tail = [st_subheader "Trip Distance Distribution"; st_histogram miles 50;
                st_subheader "Trips Over Time";
                st_line (map fst daily) (map snd daily)])).
Proof.
  intros Hwf Hp Hall Hm. unfold charts. rewrite (empty_len _ _ _ Hm).
  destruct (decide (len filtered = 0%nat)) as [Hz|Hnz].
  { rewrite bool_decide_eq_true_2 by done. simpl.
    eexists. split; [reflexivity|]. by left. }
  rewrite bool_decide_eq_false_2 by done. simpl.
  assert (v ≠ []) as Hne.
  { intros ->. pose proof (wf_getitem _ _ _ Hwf Hp) as L. simpl in L. by rewrite <- L in Hnz. }
  destruct (no_nat_first v Hne Hall) as [t0 Ht0].
  destruct (series_min_max v t0 Ht0) as (first & last & Hmin & Hmax & _).
  pose proof (resample_eq filtered v first last Hp Hmin Hmax) as Hd.
  eexists. split; [|right; split; [done|eexists; split; [exact Hd|reflexivity]]].
  intros env m. unfold bind, show, lift, daily_trips. rewrite Hm, Hd.
  destruct m. unfold with_screen. simpl. by rewrite <- !app_assoc.
Qed.

(** X18.  On a table of the expected schema - a pickup and a dropoff
    column of datetimes, the pickup column with at least one instant, and
    the distance and fare columns in a floating dtype - with the date
    widget untouched or two dates picked, the dashboard runs to its end:
    nothing is raised, no error is shown and nothing is read.  It marks the
    data as loaded and shows the date widget on the span of the table;
    then, for the table filtered on the selection, the number of its rows,
    the mean of its distance column, the mean and the sum of its fare
    column; then the two charts (the histogram of its distance column and
    its daily counts) when it has a row, and the no-data notice when it has
    none. *)
Theorem dashboard_runs (df : DataFrame) (vp vd : list (option Z)) (miles fare : column)
    (t0 : Z) (selection : option (list Z)) (env : Env) (m : Mem) :
  wf df →
  getitem df "pickup_datetime" = Ok (Datetime64 vp) →
  In (Some t0) vp →
  getitem df "dropoff_datetime" = Ok (Datetime64 vd) →
  getitem df "trip_miles" = Ok miles → float_dtype miles = true →
  getitem df "base_passenger_fare" = Ok fare → float_dtype fare = true →
  selection = None ∨ (∃ s e, selection = Some [s; e]) →
  ∃ m' lo hi s e filtered fmiles ffare a b c tail,
    dashboard df selection env m = (Done (), m') ∧
    min_date df = Ok (Some lo) ∧ max_date df = Ok (Some hi) ∧
    default [lo; hi] selection = [s; e] ∧
    filter_data df s e = Ok filtered ∧
    getitem filtered "trip_miles" = Ok fmiles ∧
    getitem filtered "base_passenger_fare" = Ok ffare ∧
    series_mean fmiles = Ok a ∧ series_mean ffare = Ok b ∧ series_sum ffare = Ok c ∧
    reads m' = reads m ∧
    session_state m' = <["data_loaded" := SBool true]> (session_state m) ∧
    screen m' =
      (screen m ++
       [st_success "Data loaded successfully!";
        st_write "Data shape:" (Some (PyShape (shape df)));
        st_sidebar_header "📊 Filters";
        st_sidebar_date_input "Select Date Range" (lo, hi) lo hi;
        st_columns 4;
        st_metric "Total Trips" [Fmt (PyInt (Z.of_nat (len filtered))) ","];
        st_metric "Avg Distance" [Fmt (PyFloat a) ".2f"; Lit " miles"];
        st_metric "Avg Fare" [Lit "$"; Fmt (PyFloat b) ".2f"];
        st_metric "Total Revenue" [Lit "$"; Fmt (PyFloat c) ",.2f"]] ++ tail)%list ∧
    ((len filtered = 0%nat ∧
      tail = [st_warning "No data available for the selected filters."]) ∨
     (len filtered ≠ 0%nat ∧
      ∃ daily, daily_trips filtered = Ok daily ∧
        tail = [st_subheader "Trip Distance Distribution"; st_histogram fmiles 50;
                st_subheader "Trips Over Time";
                st_line (map fst daily) (map snd daily)])).
Proof.
  intros Hwf Hp Ht0 Hd Hm Hfm Hf Hff Hsel.
  pose proof (convert_datetime_cols_same df vp vd Hp Hd) as Hconv.
  assert (missing_cols df = []) as Hmiss.
  { unfold missing_cols, required_cols. simpl.
    by rewrite (getitem_has_column _ _ _ Hp), (getitem_has_column _ _ _ Hd),
      (getitem_has_column _ _ _ Hm), (getitem_has_column _ _ _ Hf). }
  destruct (series_min_max vp t0 Ht0) as (first & last & Hmin & Hmax & _).
  assert (min_date df = Ok (Some (dt_date first))) as Hlo
    by (by unfold min_date; rewrite Hp; simpl; rewrite Hmin).
  assert (max_date df = Ok (Some (dt_date last))) as Hhi
    by (by unfold max_date; rewrite Hp; simpl; rewrite Hmax).
  assert (∃ s e, default [dt_date first; dt_date last] selection = [s; e]) as (s & e & Hdef).
  { destruct Hsel as [->|(s & e & ->)]; simpl; eauto. }
  set (mask := map (in_interval s e) vp).
  pose proof (filter_data_eq df vp s e Hp (all_nat_In vp t0 Ht0)) as Hfil.
  fold mask in Hfil.
  pose proof (getitem_boolean_index df mask _ _ Hp) as Hp'. simpl in Hp'.
  pose proof (getitem_boolean_index df mask _ _ Hm) as Hm'.
  pose proof (getitem_boolean_index df mask _ _ Hf) as Hf'.
  destruct (series_mean_float (col_select mask miles)
              (eq_trans (float_dtype_col_select mask miles) Hfm)) as [a Ha].
  destruct (series_mean_float (col_select mask fare)
              (eq_trans (float_dtype_col_select mask fare) Hff)) as [b Hb].
  destruct (series_sum_float (col_select mask fare)
              (eq_trans (float_dtype_col_select mask fare) Hff)) as [c Hc].
  pose proof (metrics_runs (boolean_index df mask) _ _ a b c Hm' Ha Hf' Hb Hc) as Hmet.
  destruct (charts_runs (boolean_index df mask) (select mask vp) (col_select mask miles)
              (wf_boolean_index df mask Hwf) Hp') as (tail & Hch & Htail); [|exact Hm'|].
  { eapply Forall_impl; [apply select_pred|].
    intros x Hx. apply in_interval_spec in Hx as (ts & -> & _). by eexists. }
  eexists _, (dt_date first), (dt_date last), s, e, (boolean_index df mask),
    (col_select mask miles), (col_select mask fare), a, b, c, tail.
  split; [|split; [exact Hlo|split; [exact Hhi|split; [exact Hdef|split; [exact Hfil|]]]]].
  - unfold dashboard, bind, set_session, show, lift. rewrite Hconv.
    unfold validate. rewrite Hmiss. unfold ret. rewrite Hlo, Hhi.
    unfold date_input, bind, show, ret. rewrite Hdef.
    rewrite filtered_df_filter_data, Hfil, Hmet, Hch. reflexivity.
  - split; [exact Hm'|]. split; [exact Hf'|].
    split; [exact Ha|]. split; [exact Hb|]. split; [exact Hc|].
    destruct m. unfold with_screen, with_session. simpl.
    split; [done|]. split; [done|]. split; [by rewrite <- !app_assoc|]. exact Htail.
Qed.

Lemma dashboard_runs_witness :
  wf scenario_df ∧
  In (Some (midnight (ymd 2023 1 1)))
     [Some (midnight (ymd 2023 1 1)); Some (midnight (ymd 2023 1 2));
      Some (midnight (ymd 2023 1 5))] ∧
  float_dtype (Float64 [5%float; 3%float; 1%float]) = true ∧
  (@None (list Z) = None ∨ (∃ s e, @None (list Z) = Some [s; e])) ∧
  ∃ m' lo hi s e filtered fmiles ffare a b c tail,
    dashboard scenario_df None empty_env empty_mem = (Done (), m') ∧
    min_date scenario_df = Ok (Some lo) ∧ max_date scenario_df = Ok (Some hi) ∧
    default [lo; hi] None = [s; e] ∧
    filter_data scenario_df s e = Ok filtered ∧
    getitem filtered "trip_miles" = Ok fmiles ∧
    getitem filtered "base_passenger_fare" = Ok ffare ∧
    series_mean fmiles = Ok a ∧ series_mean ffare = Ok b ∧ series_sum ffare = Ok c ∧
    reads m' = reads empty_mem ∧
    session_state m' = <["data_loaded" := SBool true]> (session_state empty_mem) ∧
    screen m' =
      (screen empty_mem ++
       [st_success "Data loaded successfully!";
        st_write "Data shape:" (Some (PyShape (shape scenario_df)));
        st_sidebar_header "📊 Filters";
        st_sidebar_date_input "Select Date Range" (lo, hi) lo hi;
        st_columns 4;
        st_metric "Total Trips" [Fmt (PyInt (Z.of_nat (len filtered))) ","];
        st_metric "Avg Distance" [Fmt (PyFloat a) ".2f"; Lit " miles"];
        st_metric "Avg Fare" [Lit "$"; Fmt (PyFloat b) ".2f"];
        st_metric "Total Revenue" [Lit "$"; Fmt (PyFloat c) ",.2f"]] ++ tail)%list ∧
    ((len filtered = 0%nat ∧
      tail = [st_warning "No data available for the selected filters."]) ∨
     (len filtered ≠ 0%nat ∧
      ∃ daily, daily_trips filtered = Ok daily ∧
        tail = [st_subheader "Trip Distance Distribution"; st_histogram fmiles 50;
                st_subheader "Trips Over Time";
                st_line (map fst daily) (map snd daily)])).
Proof.
  assert (In (Some (midnight (ymd 2023 1 1)))
            [Some (midnight (ymd 2023 1 1)); Some (midnight (ymd 2023 1 2));
             Some (midnight (ymd 2023 1 5))]) as Hin by (by left).
  split; [exact wf_scenario_df|]. split; [exact Hin|]. split; [reflexivity|].
  split; [by left|].
  apply (dashboard_runs scenario_df
           [Some (midnight (ymd 2023 1 1)); Some (midnight (ymd 2023 1 2));
            Some (midnight (ymd 2023 1 5))]
           [Some (midnight (ymd 2023 1 1)); Some (midnight (ymd 2023 1 2));
            Some (midnight (ymd 2023 1 5))]
           (Float64 [5%float; 3%float; 1%float]) (Float64 [10%float; 8%float; 4%float])
           (midnight (ymd 2023 1 1)) None empty_env empty_mem);
    [exact wf_scenario_df|reflexivity|exact Hin|reflexivity|reflexivity|reflexivity
    |reflexivity|reflexivity|by left].
Defined.

Lemma filter_nil_iff {A} (f : A → bool) (l : list A) :
  List.filter f l = [] ↔ ∀ x, In x l → f x = false.
Proof.
  induction l as [|x l IH]; simpl; [by split|].
  destruct (f x) eqn:E; split.
  - done.
  - intros H. specialize (H x (or_introl eq_refl)). congruence.
  - intros H y [<-|Hy]; [done|]. by apply IH.
  - intros H. apply IH. auto.
Qed.

(** X19.  The validation passes exactly when the four columns
    [pickup_datetime], [dropoff_datetime], [trip_miles] and
    [base_passenger_fare] are all present, whatever other columns the table
    has or lacks; it then shows nothing and changes nothing. *)
Theorem validate_passes_iff (df : DataFrame) (env : Env) (m : Mem) :
  validate df env m = (Done (), m) ↔
  has_column df "pickup_datetime" = true ∧ has_column df "dropoff_datetime" = true ∧
  has_column df "trip_miles" = true ∧ has_column df "base_passenger_fare" = true.
Proof.
  unfold validate. split.
  - destruct (missing_cols df) as [|c rest] eqn:E; [|done]. intros _.
    unfold missing_cols in E. rewrite filter_nil_iff in E.
    repeat split; apply negb_false_iff, E; unfold required_cols; simpl; auto.
  - intros (H1 & H2 & H3 & H4).
    assert (missing_cols df = []) as ->; [|done].
    unfold missing_cols, required_cols. simpl. by rewrite H1, H2, H3, H4.
Qed.

(** X20.  On a table with at least one pickup instant, [min_date] and
    [max_date] are dates of pickup instants of the table, and every pickup
    date of the table lies between them; so the default selection of the
    date widget keeps every row that has a pickup instant. *)
Theorem date_span_bounds (df : DataFrame) (v : list (option Z)) (t0 : Z) :
  wf df →
  getitem df "pickup_datetime" = Ok (Datetime64 v) →
  In (Some t0) v →
  ∃ lo hi out,
    min_date df = Ok (Some lo) ∧ max_date df = Ok (Some hi) ∧
    (∃ t, In (Some t) v ∧ dt_date t = lo) ∧ (∃ t, In (Some t) v ∧ dt_date t = hi) ∧
    (∀ t, In (Some t) v → lo ≤ dt_date t ≤ hi) ∧
    filtered_df df [lo; hi] = Ok out ∧
    len out = length (List.filter notna v).
Proof.
  intros Hwf Hget Hin.
  destruct (series_min_max v t0 Hin) as (first & last & Hmin & Hmax & Hf & Hl & Hb).
  set (mask := map (in_interval (dt_date first) (dt_date last)) v).
  exists (dt_date first), (dt_date last), (boolean_index df mask).
  split; [by unfold min_date; rewrite Hget; simpl; rewrite Hmin|].
  split; [by unfold max_date; rewrite Hget; simpl; rewrite Hmax|].
  split; [by exists first|]. split; [by exists last|].
  assert (∀ t, In (Some t) v → dt_date first ≤ dt_date t ≤ dt_date last) as Hd.
  { intros t Ht. destruct (Hb t Ht). split; by apply dt_date_mono. }
  split; [exact Hd|].
  split; [by rewrite filtered_df_filter_data,
               (filter_data_eq df v _ _ Hget (all_nat_In v t0 Hin))|].
  unfold len; simpl.
  rewrite (length_select_same mask (index df) v)
    by (pose proof (wf_getitem df _ _ Hwf Hget) as L; simpl in L; by rewrite L).
  unfold mask. rewrite select_filter. f_equal. apply filter_ext_in.
  intros [t|] Ht; simpl; [|done]. apply in_interval_spec. exists t. auto.
Qed.

Lemma date_span_bounds_witness :
  wf nat_df ∧
  getitem nat_df "pickup_datetime"
    = Ok (Datetime64 [Some (midnight (ymd 2023 1 1)); None]) ∧
  In (Some (midnight (ymd 2023 1 1))) [Some (midnight (ymd 2023 1 1)); None] ∧
  ∃ lo hi out,
    min_date nat_df = Ok (Some lo) ∧ max_date nat_df = Ok (Some hi) ∧
    (∃ t, In (Some t) [Some (midnight (ymd 2023 1 1)); None] ∧ dt_date t = lo) ∧
    (∃ t, In (Some t) [Some (midnight (ymd 2023 1 1)); None] ∧ dt_date t = hi) ∧
    (∀ t, In (Some t) [Some (midnight (ymd 2023 1 1)); None] → lo ≤ dt_date t ≤ hi) ∧
    filtered_df nat_df [lo; hi] = Ok out ∧
    len out = length (List.filter notna [Some (midnight (ymd 2023 1 1)); None]).
Proof.
  split; [exact wf_nat_df|]. split; [reflexivity|]. split; [by left|].
  apply (date_span_bounds nat_df [Some (midnight (ymd 2023 1 1)); None]
           (midnight (ymd 2023 1 1))); [exact wf_nat_df|reflexivity|by left].
Defined.

Lemma filtered_daily_counts_dense_witness :
  wf scenario_df ∧
  ∃ out,
    filter_data scenario_df (ymd 2023 1 2) (ymd 2023 1 5) = Ok out ∧
    len out ≠ 0%nat ∧
    ∃ lo hi series,
      min_date out = Ok (Some lo) ∧ max_date out = Ok (Some hi) ∧
      daily_trips out = Ok series ∧
      (∀ d, lo ≤ d ≤ hi → count_occ Z.eq_dec (label_dates series) d = 1%nat) ∧
      Forall (λ e, 0 ≤ snd e) series ∧
      total (map snd series) = Z.of_nat (len out).
Proof.
  split; [exact wf_scenario_df|]. eexists. split; [reflexivity|].
  split; [discriminate|].
  apply (filtered_daily_counts_dense scenario_df _
           [Some (midnight (ymd 2023 1 1)); Some (midnight (ymd 2023 1 2));
            Some (midnight (ymd 2023 1 5))] (ymd 2023 1 2) (ymd 2023 1 5));
    [exact wf_scenario_df|reflexivity|reflexivity|discriminate].
Defined.

(** * Runs on a warm cache *)

Lemma silent_bind_quiet {A B} (c : Script A) (k : A → Script B) env m :
  quiet c →
  (∀ a m0, load_parquet_data_cache m0 = load_parquet_data_cache m →
           silent_at (k a) env m0) →
  silent_at (bind c k) env m.
Proof.
  intros Hc Hk. unfold silent_at, bind. specialize (Hc env m).
  destruct (c env m) as [[a| | |] m0]; simpl in *; try done.
  destruct Hc as (Hr & Hl & Hp).
  destruct (Hk a m0 Hp) as (-> & -> & ->). done.
Qed.

Lemma silent_bind_then_quiet {A B} (c : Script A) (k : A → Script B) env m :
  silent_at c env m → (∀ a, quiet (k a)) → silent_at (bind c k) env m.
Proof.
  intros Hc Hk. unfold silent_at, bind in *.
  destruct (c env m) as [[a| | |] m0]; simpl in *; try done.
  destruct (Hk a env m0) as (-> & -> & ->). done.
Qed.

Lemma silent_try_except {A} (body : Script A) (handler : exn → Script A) env m :
  silent_at body env m → (∀ e, quiet (handler e)) →
  silent_at (try_except body handler) env m.
Proof.
  intros Hb Hh. unfold silent_at, try_except in *.
  destruct (body env m) as [[a|e| |] m0]; simpl in *; try done.
  destruct (Hh e env m0) as (-> & -> & ->). done.
Qed.

Lemma silent_acquire_df (e : cached (option DataFrame)) env m :
  load_parquet_data_cache m !! data_file = Some e → silent_at acquire_df env m.
Proof.
  intros He. unfold acquire_df.
  apply silent_bind_quiet; [auto with quiet|]. intros found m0 E.
  destruct (negb found).
  - assert (quiet (show (st_error [Lit "Data file not found at: ";
                                   Fmt (PyStr data_file) ""]);;
                   dir <- ask cwd;;
                   show (st_write "Current working directory:" (Some (PyStr dir)));;
                   show (st_file_uploader "Upload your Uber dataset (Parquet format)");;
                   up <- ask uploaded_file;;
                   match up with
                   | Some f => df <- read_parquet_upload f;; ret (Some df)
                   | None => st_stop
                   end)) as Hq
      by (unfold read_parquet_upload; quiet_steps).
    apply Hq.
  - unfold silent_at, load_parquet_data, cache_data, cache_hit. rewrite E, He.
    by destruct m0.
Qed.

(** X21.  Once [load_parquet_data] has a cached result for the data file,
    no run of the script reads a path again: whatever the session, the
    selection, the time and the state of the file, the run hands no path to
    [pd.read_parquet] and leaves both caches as they are. *)
Theorem app_reads_nothing_when_cached (selection : option (list Z)) (env : Env)
    (m : Mem) (e : cached (option DataFrame)) :
  load_parquet_data_cache m !! data_file = Some e →
  reads (snd (app selection env m)) = reads m ∧
  load_data_cache (snd (app selection env m)) = load_data_cache m ∧
  load_parquet_data_cache (snd (app selection env m)) = load_parquet_data_cache m.
Proof.
  intros He. change (silent_at (app selection) env m). unfold app.
  apply silent_bind_quiet; [auto with quiet|]. intros _ m1 E1.
  apply silent_bind_quiet; [auto with quiet|]. intros ss m2 E2.
  apply silent_bind_quiet; [destruct (negb _); auto with quiet|]. intros _ m3 E3.
  apply silent_bind_quiet; [auto with quiet|]. intros _ m4 E4.
  apply silent_bind_quiet; [apply quiet_check_password|]. intros ok m5 E5.
  destruct (truthy ok); [|apply quiet_show].
  apply silent_bind_quiet; [auto with quiet|]. intros _ m6 E6.
  apply silent_try_except; [|apply quiet_on_exception].
  apply silent_bind_then_quiet.
  - apply (silent_acquire_df e). by rewrite E6, E5, E4, E3, E2, E1.
  - intros [df|]; [apply quiet_dashboard|]. quiet_steps.
Qed.

Lemma app_reads_nothing_when_cached_witness :
  load_parquet_data_cache warm_mem !! data_file
    = Some (mkCached 0 (Some scenario_df) []) ∧
  reads (snd (app None wide_env warm_mem)) = reads warm_mem ∧
  load_data_cache (snd (app None wide_env warm_mem)) = load_data_cache warm_mem ∧
  load_parquet_data_cache (snd (app None wide_env warm_mem))
    = load_parquet_data_cache warm_mem.
Proof.
  assert (load_parquet_data_cache warm_mem !! data_file
          = Some (mkCached 0 (Some scenario_df) [])) as H by (vm_compute; reflexivity).
  split; [exact H|].
  exact (app_reads_nothing_when_cached None wide_env warm_mem _ H).
Defined.
